(** * Span links: trace-to-logs / trace-to-metrics query building, time-window
      derivation, and the alert state-history stub.

    A shallow embedding of the span-link factory of the trace view
    ([createSpanLinkFactory] and the functions it calls) and of
    [pkg/services/ngalert/state/historian/sql.go].

    Conventions of the embedding
    - JavaScript strings are [string]; an optional property [p?: T] is
      [option T] ([None] is [undefined]).
    - Truthiness is written out: a string is truthy when it is not empty, an
      optional boolean when it is [Some true], an array always.
    - Span times are integer microseconds and time shifts integer
      milliseconds; the only non-integer intermediate values are quotients by
      1000, which are kept as exact rationals ([Q]) and rounded with
      [Qfloor], the counterpart of [Math.floor]. JavaScript computes the
      quotient and its sum with the shift in double precision: the result
      of [Math.floor] is the same as long as the times are at most 2^52
      microseconds and the shifts at most 2^41 milliseconds in absolute
      value (with no shift, for every time a double holds exactly); for
      larger shifts the rounded sum can reach the next integer.
    - The closure variable [scopedVars] and the console are explicit state. *)

From Stdlib Require Import ZArith QArith Qround List String Ascii Bool Lia.
Import ListNotations.

Open Scope string_scope.
Open Scope Z_scope.

(** ** JavaScript primitives used by the module *)

Module JS.

(** The double-quote character, as a one-character string. *)
Definition dq : string := String "034"%char EmptyString.

(** [Boolean(s)] for a string. *)
Definition truthy (s : string) : bool := negb (s =? "")%string.

(** [Boolean(o)] for an optional string. *)
Definition truthy_opt (o : option string) : bool :=
  match o with
  | Some s => truthy s
  | None => false
  end.

(** [Boolean(b)] for an optional boolean. *)
Definition truthy_flag (o : option bool) : bool :=
  match o with
  | Some b => b
  | None => false
  end.

(** [a || d] where [a] is an optional array: every array, the empty one
    included, is truthy, so [d] is taken only for [undefined]. *)
Definition or_else {A : Type} (a : option (list A)) (d : list A) : list A :=
  match a with
  | Some l => l
  | None => d
  end.

(** [Array.prototype.join] on an array of strings. *)
Fixpoint join (sep : string) (l : list string) : string :=
  match l with
  | [] => ""
  | [x] => x
  | x :: ((_ :: _) as xs) => x ++ sep ++ join sep xs
  end.

(** [s.indexOf(pat) !== -1]. *)
Fixpoint includes (pat s : string) : bool :=
  if String.prefix pat s then true
  else match s with
       | EmptyString => false
       | String _ rest => includes pat rest
       end.

(** The replacement-text expansion of [String.prototype.replace] for a
    pattern without capture groups: [$$] is a dollar sign, [$&] the matched
    text, [$`] the text before the match and [$'] the text after it; any
    other [$] stands for itself. *)
Fixpoint getSubstitution (matched before after replacement : string) : string :=
  match replacement with
  | EmptyString => ""
  | String c tl =>
      if (c =? "$")%char then
        match tl with
        | EmptyString => "$"
        | String d rest =>
            if (d =? "$")%char then "$" ++ getSubstitution matched before after rest
            else if (d =? "&")%char then matched ++ getSubstitution matched before after rest
            else if (d =? "`")%char then before ++ getSubstitution matched before after rest
            else if (d =? "'")%char then after ++ getSubstitution matched before after rest
            else String c (getSubstitution matched before after tl)
        end
      else String c (getSubstitution matched before after tl)
  end.

(** The scan of [whole.replace(/pat/g, replacement)] for a literal,
    non-empty [pat]: [s] is the suffix of [whole] at offset [pos], and
    [skip] counts the characters of a match still to be consumed. *)
Fixpoint replaceAllFrom (pat replacement whole : string) (pos skip : nat) (s : string)
  : string :=
  match s with
  | EmptyString => ""
  | String c rest =>
      match skip with
      | S k => replaceAllFrom pat replacement whole (S pos) k rest
      | O =>
          if String.prefix pat s then
            getSubstitution pat
              (String.substring 0 pos whole)
              (String.substring (pos + String.length pat) (String.length whole) whole)
              replacement
            ++ replaceAllFrom pat replacement whole (S pos) (String.length pat - 1) rest
          else String c (replaceAllFrom pat replacement whole (S pos) 0 rest)
      end
  end.

(** [acc.push(x)], as the array after the call. *)
Definition push {A : Type} (acc : list A) (x : A) : list A := (acc ++ [x])%list.

Definition replaceAll (pat replacement whole : string) : string :=
  replaceAllFrom pat replacement whole 0 0 whole.

End JS.

(** ** Data model *)

(** [KeyValue<string>]: one entry of a tag mapping, [{ key, value? }]. *)
Record KeyValue : Type := Build_KeyValue {
  kv_key : string;
  kv_value : option string
}.

(** [TraceKeyValuePair]: one tag of a span or of its process. *)
Record TraceKeyValuePair : Type := Build_TraceKeyValuePair {
  tag_key : string;
  tag_value : string
}.

Record TraceProcess : Type := Build_TraceProcess {
  process_tags : list TraceKeyValuePair
}.

(** [TraceSpan] and [TraceSpanReference], with the fields the factory reads.
    [startTime] and [duration] are in microseconds. *)
Inductive TraceSpan : Type := Build_TraceSpan {
  spanID : string;
  traceID : string;
  operationName : string;
  startTime : Z;
  duration : Z;
  tags : list TraceKeyValuePair;
  process : TraceProcess;
  references : option (list TraceSpanReference);
  subsidiarilyReferencedBy : option (list TraceSpanReference);
  dataFrameRowIndex : option nat
}
with TraceSpanReference : Type := Build_TraceSpanReference {
  refType : string;
  refSpan : option TraceSpan;
  refSpanID : string;
  refTraceID : string
}.

Record Trace : Type := Build_Trace {
  trace_traceID : string;
  traceName : string;
  trace_duration : Z
}.

(** [TraceToLogsOptionsV2] of [TraceToLogsSettings.tsx]. *)
Record TraceToLogsOptionsV2 : Type := Build_TraceToLogsOptionsV2 {
  datasourceUid : option string;
  logs_tags : option (list KeyValue);
  spanStartTimeShift : option string;
  spanEndTimeShift : option string;
  filterByTraceID : option bool;
  filterBySpanID : option bool;
  logs_query : option string;
  customQuery : bool
}.

(** [TraceToMetricQuery] and [TraceToMetricsOptions]. *)
Record TraceToMetricQuery : Type := Build_TraceToMetricQuery {
  mq_name : option string;
  mq_query : option string
}.

Record TraceToMetricsOptions : Type := Build_TraceToMetricsOptions {
  metrics_datasourceUid : option string;
  metrics_tags : option (list KeyValue);
  queries : option (list TraceToMetricQuery);
  metrics_spanStartTimeShift : option string;
  metrics_spanEndTimeShift : option string
}.

(** The query objects the builders produce, one constructor per shape. *)
Inductive DataQuery : Type :=
| BareQuery (refId : string)
| LokiQuery (expr refId : string)
| ElasticsearchOrOpensearchQuery (query refId : string) (metrics : list (string * string))
| SplunkQuery (query refId : string)
| PromQuery (expr refId : string)
| UserQuery (query : option string).

(** The text carried by a query object ([expr] or [query]). *)
Definition queryText (q : DataQuery) : string :=
  match q with
  | BareQuery _ => ""
  | LokiQuery e _ => e
  | ElasticsearchOrOpensearchQuery t _ _ => t
  | SplunkQuery t _ => t
  | PromQuery e _ => e
  | UserQuery (Some t) => t
  | UserQuery None => ""
  end.

(** The pair [{ query, tags }] every log-query builder returns. *)
Record QueryData : Type := Build_QueryData {
  qd_query : DataQuery;
  qd_tags : string
}.

(** [dateTime(ms)]: a point in time, in milliseconds since the epoch. *)
Definition DateTime : Type := Z.
Definition dateTime (ms : Z) : DateTime := ms.

Record RawTimeRange : Type := Build_RawTimeRange {
  raw_from : DateTime;
  raw_to : DateTime
}.

Record TimeRange : Type := Build_TimeRange {
  from : DateTime;
  to : DateTime;
  raw : RawTimeRange
}.

Record TimeShift : Type := Build_TimeShift {
  startMs : Z;
  endMs : Z
}.

(** ** Tag resolution *)

(** Default keys to use when there are no configured tags. *)
Definition defaultKeys : list KeyValue :=
  map (fun k => Build_KeyValue k None) ["cluster"; "hostname"; "namespace"; "pod"].

Definition defaultLabelValueSign : string := "=".

(** [keyValue.value ? keyValue.value : keyValue.key]: the label a mapping
    entry projects its tag onto. *)
Definition labelOf (keyValue : KeyValue) : string :=
  match kv_value keyValue with
  | Some v => if JS.truthy v then v else kv_key keyValue
  | None => kv_key keyValue
  end.

(** The value [map] yields for one tag in [getTags]: the fragment
    [label<sign>"value"] when a mapping entry has the tag's key,
    [undefined] otherwise. *)
Definition tagFragment (mapping : list KeyValue) (labelValueSign : string)
  (tag : TraceKeyValuePair) : option string :=
  match find (fun keyValue => (kv_key keyValue =? tag_key tag)%string) mapping with
  | Some keyValue =>
      Some (labelOf keyValue ++ labelValueSign ++ JS.dq ++ tag_value tag ++ JS.dq)
  | None => None
  end.

(** [.filter((v) => Boolean(v))] on the mapped array. *)
Fixpoint filterBoolean (l : list (option string)) : list string :=
  match l with
  | [] => []
  | Some s :: rest => if JS.truthy s then s :: filterBoolean rest else filterBoolean rest
  | None :: rest => filterBoolean rest
  end.

Definition getTags (span : TraceSpan) (mapping : list KeyValue) (labelValueSign : string)
  : list string :=
  filterBoolean
    (map (tagFragment mapping labelValueSign) (process_tags (process span) ++ tags span)).

(** ** Log-query builders *)

Definition getQueryForLoki (span : TraceSpan) (options : TraceToLogsOptionsV2) : QueryData :=
  let tags := JS.join ", " (getTags span (JS.or_else (logs_tags options) defaultKeys)
                                    defaultLabelValueSign) in
  if negb (JS.truthy tags) then Build_QueryData (LokiQuery "" "") tags
  else
    let expr := "{$__tags}" in
    let expr := if JS.truthy_flag (filterByTraceID options) && JS.truthy (traceID span)
                then expr ++ " |=" ++ JS.dq ++ "$__span.traceId" ++ JS.dq
                else expr in
    let expr := if JS.truthy_flag (filterBySpanID options) && JS.truthy (spanID span)
                then expr ++ " |=" ++ JS.dq ++ "$__span.id" ++ JS.dq
                else expr in
    Build_QueryData (LokiQuery expr "") tags.

Definition getQueryForElasticsearchOrOpensearch (span : TraceSpan)
  (options : TraceToLogsOptionsV2) : QueryData :=
  let tags := JS.join " AND " (getTags span (JS.or_else (logs_tags options) []) ":") in
  let query := "" in
  let query := if (0 <? String.length tags)%nat then query ++ "$__tags" else query in
  let query := if JS.truthy_flag (filterByTraceID options) && JS.truthy (traceID span)
               then JS.dq ++ "$__span.traceId" ++ JS.dq ++ " AND " ++ query
               else query in
  let query := if JS.truthy_flag (filterBySpanID options) && JS.truthy (spanID span)
               then JS.dq ++ "$__span.id" ++ JS.dq ++ " AND " ++ query
               else query in
  Build_QueryData (ElasticsearchOrOpensearchQuery query "" [("1", "logs")]) tags.

Definition getQueryForSplunk (span : TraceSpan) (options : TraceToLogsOptionsV2) : QueryData :=
  let tags := JS.join " " (getTags span (JS.or_else (logs_tags options) defaultKeys)
                                   defaultLabelValueSign) in
  let query := "" in
  let query := if JS.truthy tags then query ++ "$__tags" else query in
  let query := if JS.truthy_flag (filterByTraceID options) && JS.truthy (traceID span)
               then query ++ " " ++ JS.dq ++ "$__span.traceId" ++ JS.dq
               else query in
  let query := if JS.truthy_flag (filterBySpanID options) && JS.truthy (spanID span)
               then query ++ " " ++ JS.dq ++ "$__span.id" ++ JS.dq
               else query in
  Build_QueryData (SplunkQuery query "") tags.

(** ** Time-window derivation *)

(** Gets a time range from the span. *)
Definition getTimeRangeFromSpan (span : TraceSpan) (timeShift : TimeShift) (isSplunkDS : bool)
  : TimeRange :=
  let adjustedStartTime :=
    Qfloor (inject_Z (startTime span) / inject_Z 1000 + inject_Z (startMs timeShift))%Q in
  let from := dateTime adjustedStartTime in
  let spanEndMs := (inject_Z (startTime span + duration span) / inject_Z 1000)%Q in
  let adjustedEndTime := Qfloor (spanEndMs + inject_Z (endMs timeShift))%Q in
  let adjustedEndTime :=
    (* Splunk requires a time interval of >= 1s *)
    if isSplunkDS && (adjustedEndTime - adjustedStartTime <? 1000)
    then adjustedStartTime + 1000
    else if adjustedStartTime =? adjustedEndTime
         then adjustedEndTime + 1
         else adjustedEndTime in
  let to := dateTime adjustedEndTime in
  Build_TimeRange from to (Build_RawTimeRange from to).

(** The default arguments of [getTimeRangeFromSpan]. *)
Definition noTimeShift : TimeShift := Build_TimeShift 0 0.

(** ** Metric-query builder *)

(** Interpolates span attributes into trace to metric query, or returns
    default query. *)
Definition buildMetricsQuery (query : TraceToMetricQuery) (mapping : option (list KeyValue))
  (span : TraceSpan) : string :=
  let mapping := JS.or_else mapping [] in
  if negb (JS.truthy_opt (mq_query query)) then
    "histogram_quantile(0.5, sum(rate(tempo_spanmetrics_latency_bucket{operation="
    ++ JS.dq ++ operationName span ++ JS.dq ++ "}[5m])) by (le))"
  else
    let expr := match mq_query query with Some e => e | None => "" end in
    if (0 <? List.length mapping)%nat && JS.includes "$__tags" expr then
      let spanTags := (process_tags (process span) ++ tags span)%list in
      let labels :=
        fold_left
          (fun acc tag =>
             match find (fun t => (tag_key t =? kv_key tag)%string) spanTags with
             | Some t =>
                 let tagValue := tag_value t in
                 if JS.truthy tagValue
                 then JS.push acc (labelOf tag ++ "=" ++ JS.dq ++ tagValue ++ JS.dq)
                 else acc
             | None => acc
             end)
          mapping [] in
      let labelsQuery := JS.join ", " labels in
      JS.replaceAll "$__tags" labelsQuery expr
    else expr.

(** ** Scoped variables *)

(** The values held by a [ScopedVars] object: strings, numbers and nested
    objects, an object being its properties in insertion order. *)
#[warnings="-register-all"]
Inductive JsValue : Type :=
| JStr (s : string)
| JNum (z : Z)
| JObj (props : list (string * JsValue)).

Definition ScopedVars : Type := list (string * JsValue).

(** [obj[k] = v]: an existing property keeps its place, a new one goes last. *)
Fixpoint setProp (obj : list (string * JsValue)) (k : string) (v : JsValue)
  : list (string * JsValue) :=
  match obj with
  | [] => [(k, v)]
  | (k', v') :: rest =>
      if (k' =? k)%string then (k, v) :: rest else (k', v') :: setProp rest k v
  end.

(** The object spread [{ ...a, ...b }]. *)
Definition spread (a b : list (string * JsValue)) : list (string * JsValue) :=
  fold_left (fun acc kv => setProp acc (fst kv) (snd kv)) b a.

Definition scopedVarsFromTrace (trace : Trace) : ScopedVars :=
  [("__trace",
    JObj [("text", JStr "Trace");
          ("value",
           JObj [("duration", JObj [("value", JNum (trace_duration trace))]);
                 ("name", JObj [("value", JStr (traceName trace))]);
                 ("id", JObj [("value", JStr (trace_traceID trace))])])])].

Definition scopedVarsFromSpan (span : TraceSpan) : ScopedVars :=
  let tags :=
    fold_left
      (fun acc tag =>
         setProp acc (tag_key tag)
           (JObj [("text", JStr (tag_key tag)); ("value", JStr (tag_value tag))]))
      (tags span) [] in
  [("__span",
    JObj [("text", JStr "Span");
          ("value",
           JObj [("id", JObj [("value", JStr (spanID span))]);
                 ("duration", JObj [("value", JNum (duration span))]);
                 ("name", JObj [("value", JStr (operationName span))]);
                 ("tags", JObj [("value", JObj (spread [] tags))])])])].

(** ** Links and collaborators *)

Record DataSourceInstanceSettings : Type := Build_DataSourceInstanceSettings {
  ds_type : string;
  ds_name : string;
  ds_uid : string
}.

Record InternalDataLink : Type := Build_InternalDataLink {
  internal_datasourceUid : string;
  internal_datasourceName : string;
  internal_query : DataQuery
}.

Record DataLink : Type := Build_DataLink {
  dl_title : string;
  dl_url : string;
  internal : option InternalDataLink
}.

Record FieldConfig : Type := Build_FieldConfig {
  links : option (list DataLink)
}.

Record Field : Type := Build_Field {
  field_name : string;
  config : FieldConfig
}.

Record DataFrame : Type := Build_DataFrame {
  fields : list Field
}.

Record Icon : Type := Build_Icon {
  icon_name : string;
  icon_title : string
}.

(** A value thrown by JavaScript code. *)
Inductive JsError : Type :=
| TypeError (message : string)
| Thrown (message : string).

(** How a call ends: with a value, or by throwing. *)
Inductive Completion (A : Type) : Type :=
| Normal (value : A)
| Throw (error : JsError).

Arguments Normal {A} value.
Arguments Throw {A} error.

Section LinkFactory.

(** The click handler carried by a link and the split-view callback are
    opaque to the factory. *)
Context {OnClick SplitOpen : Type}.

Record LinkModel : Type := Build_LinkModel {
  lm_href : string;
  lm_onClick : OnClick
}.

Record SpanLinkDef : Type := Build_SpanLinkDef {
  href : string;
  onClick : OnClick;
  title : option string;
  content : Icon
}.

Record SpanLinks : Type := Build_SpanLinks {
  logLinks : option (list SpanLinkDef);
  traceLinks : option (list SpanLinkDef);
  metricLinks : option (list SpanLinkDef)
}.

(** What the closure returned by the factory reads and writes between
    calls: its captured [scopedVars], and the console. *)
Record FactoryState : Type := Build_FactoryState {
  scopedVars : ScopedVars;
  console : list JsError
}.

Definition SpanLinkFunc : Type :=
  TraceSpan -> FactoryState -> Completion (option SpanLinks) * FactoryState.

(** The services the factory calls. [getFieldLinksForExplore] may throw
    (a data source can define a wrong interpolation in its data link);
    the services of the legacy path are taken to return normally. *)
Class Collaborators : Type := Build_Collaborators {
  (* getDatasourceSrv().getInstanceSettings *)
  getInstanceSettings : string -> option DataSourceInstanceSettings;
  (* rangeUtil.intervalToMs *)
  intervalToMs : string -> Z;
  (* mapInternalLinkToExplore({ link, internalLink, scopedVars, range, field, onClickFn,
     replaceVariables }) *)
  mapInternalLinkToExplore : DataLink -> ScopedVars -> TimeRange -> SplitOpen -> LinkModel;
  (* getFieldLinksForExplore({ field, rowIndex, splitOpenFn, range, dataFrame, vars }) *)
  getFieldLinksForExplore :
    option Field -> option nat -> SplitOpen -> TimeRange -> DataFrame -> ScopedVars ->
    Completion (list LinkModel)
}.

Context {collaborators : Collaborators}.

(** [Boolean(f.config.links?.length)]. *)
Definition hasLinks (f : Field) : bool :=
  match links (config f) with
  | Some l => (0 <? List.length l)%nat
  | None => false
  end.

(** [shift ? rangeUtil.intervalToMs(shift) : 0]. *)
Definition shiftMs (shift : option string) : Z :=
  match shift with
  | Some s => if JS.truthy s then intervalToMs s else 0
  | None => 0
  end.

(** The [switch] on the type of the logs data source. *)
Definition queryDataForType (type : string) (span : TraceSpan)
  (traceToLogsOptions : TraceToLogsOptionsV2) (queryData : QueryData) : QueryData :=
  if (type =? "loki")%string then getQueryForLoki span traceToLogsOptions
  else if (type =? "grafana-splunk-datasource")%string
    then getQueryForSplunk span traceToLogsOptions
  else if (type =? "elasticsearch")%string || (type =? "grafana-opensearch-datasource")%string
    then getQueryForElasticsearchOrOpensearch span traceToLogsOptions
  else queryData.

(** The trace link pushed for one reference. *)
Definition traceLinkOf (createFocusSpanLink : string -> string -> LinkModel)
  (reference : TraceSpanReference) : SpanLinkDef :=
  let link := createFocusSpanLink (refTraceID reference) (refSpanID reference) in
  Build_SpanLinkDef
    (lm_href link)
    (lm_onClick link)
    (Some (match refSpan reference with
           | Some s => operationName s
           | None => "View linked span"
           end))
    (Build_Icon "link" "View linked span").

(** [links.traceLinks!.push(x)]. *)
Definition pushTraceLink (links : SpanLinks) (x : SpanLinkDef) : SpanLinks :=
  Build_SpanLinks (logLinks links)
    (Some (JS.push (JS.or_else (traceLinks links) []) x))
    (metricLinks links).

(** [links.metricLinks.push(x)]. *)
Definition pushMetricLink (links : SpanLinks) (x : SpanLinkDef) : SpanLinks :=
  Build_SpanLinks (logLinks links) (traceLinks links)
    (Some (JS.push (JS.or_else (metricLinks links) []) x)).

(** *** Legacy mode *)

(** The "Get logs link" block of [SpanLink]. It reads and writes the
    captured [scopedVars] and sets [links.logLinks]. *)
Definition logsLinkBlock (splitOpenFn : SplitOpen)
  (logsDataSourceSettings : option DataSourceInstanceSettings) (isSplunkDS : bool)
  (traceToLogsOptions : option TraceToLogsOptionsV2)
  (span : TraceSpan) (links : SpanLinks) (scopedVars : ScopedVars)
  : SpanLinks * ScopedVars :=
  let queryData := Build_QueryData (BareQuery "") "" in
  match logsDataSourceSettings, traceToLogsOptions with
  | Some settings, Some options =>
      let queryData := queryDataForType (ds_type settings) span options queryData in
      if JS.truthy (qd_tags queryData) || customQuery options then
        let dataLink :=
          Build_DataLink (ds_name settings) ""
            (Some (Build_InternalDataLink (ds_uid settings) (ds_name settings)
                     (if customQuery options then UserQuery (logs_query options)
                      else qd_query queryData))) in
        let scopedVars :=
          spread scopedVars
            [("__tags", JObj [("text", JStr "Tags"); ("value", JStr (qd_tags queryData))])] in
        let link :=
          mapInternalLinkToExplore dataLink scopedVars
            (getTimeRangeFromSpan span
               (Build_TimeShift (shiftMs (spanStartTimeShift options))
                                (shiftMs (spanEndTimeShift options)))
               isSplunkDS)
            splitOpenFn in
        (Build_SpanLinks
           (Some [Build_SpanLinkDef (lm_href link) (lm_onClick link) None
                    (Build_Icon "gf-logs" "Explore the logs for this in split view")])
           (traceLinks links) (metricLinks links),
         scopedVars)
      else (links, scopedVars)
  | _, _ => (links, scopedVars)
  end.

(** The "Get metrics links" block of [SpanLink]. *)
Definition metricsLinksBlock (splitOpenFn : SplitOpen)
  (metricsDataSourceSettings : option DataSourceInstanceSettings)
  (traceToMetricsOptions : option TraceToMetricsOptions)
  (span : TraceSpan) (links : SpanLinks) : SpanLinks :=
  match metricsDataSourceSettings, traceToMetricsOptions with
  | Some settings, Some options =>
      match queries options with
      | Some qs =>
          let links := Build_SpanLinks (logLinks links) (traceLinks links) (Some []) in
          fold_left
            (fun links query =>
               let expr := buildMetricsQuery query (metrics_tags options) span in
               let dataLink :=
                 Build_DataLink (ds_name settings) ""
                   (Some (Build_InternalDataLink (ds_uid settings) (ds_name settings)
                            (PromQuery expr "A"))) in
               let link :=
                 mapInternalLinkToExplore dataLink []
                   (getTimeRangeFromSpan span
                      (Build_TimeShift (shiftMs (metrics_spanStartTimeShift options))
                                       (shiftMs (metrics_spanEndTimeShift options)))
                      false)
                   splitOpenFn in
               pushMetricLink links
                 (Build_SpanLinkDef (lm_href link) (lm_onClick link) (mq_name query)
                    (Build_Icon "chart-line" "Explore metrics for this span")))
            qs links
      | None => links
      end
  | _, _ => links
  end.

(** The "Get trace links" block of [SpanLink]: the loop over
    [span.references]. *)
Definition referenceLinksBlock
  (createFocusSpanLink : option (string -> string -> LinkModel))
  (span : TraceSpan) (links : SpanLinks) : SpanLinks :=
  match references span, createFocusSpanLink with
  | Some refs, Some create =>
      fold_left
        (fun links reference =>
           (* Ignore parent-child links *)
           if (refType reference =? "CHILD_OF")%string then links
           else pushTraceLink links (traceLinkOf create reference))
        refs links
  | _, _ => links
  end.

(** The loop over [span.subsidiarilyReferencedBy]. *)
Definition subsidiaryLinksBlock
  (createFocusSpanLink : option (string -> string -> LinkModel))
  (span : TraceSpan) (links : SpanLinks) : SpanLinks :=
  match subsidiarilyReferencedBy span, createFocusSpanLink with
  | Some refs, Some create =>
      fold_left
        (fun links reference => pushTraceLink links (traceLinkOf create reference))
        refs links
  | _, _ => links
  end.

(** [legacyCreateSpanLinkFactory]: the data source settings are looked up
    once, then the returned [SpanLink] runs the four blocks in order. Its
    [scopedVars] argument is the initial state of the closure. *)
Definition legacyCreateSpanLinkFactory (splitOpenFn : SplitOpen)
  (traceToLogsOptions : option TraceToLogsOptionsV2)
  (traceToMetricsOptions : option TraceToMetricsOptions)
  (createFocusSpanLink : option (string -> string -> LinkModel))
  : SpanLinkFunc :=
  let logsDataSourceSettings :=
    match traceToLogsOptions with
    | Some options =>
        match datasourceUid options with
        | Some uid => if JS.truthy uid then getInstanceSettings uid else None
        | None => None
        end
    | None => None
    end in
  let isSplunkDS :=
    match logsDataSourceSettings with
    | Some settings => (ds_type settings =? "grafana-splunk-datasource")%string
    | None => false
    end in
  let metricsDataSourceSettings :=
    match traceToMetricsOptions with
    | Some options =>
        match metrics_datasourceUid options with
        | Some uid => if JS.truthy uid then getInstanceSettings uid else None
        | None => None
        end
    | None => None
    end in
  fun span state =>
    let scopedVars := spread (scopedVars state) (scopedVarsFromSpan span) in
    let links := Build_SpanLinks None (Some []) None in
    let '(links, scopedVars) :=
      logsLinkBlock splitOpenFn logsDataSourceSettings isSplunkDS traceToLogsOptions
        span links scopedVars in
    let links :=
      metricsLinksBlock splitOpenFn metricsDataSourceSettings traceToMetricsOptions
        span links in
    let links := referenceLinksBlock createFocusSpanLink span links in
    let links := subsidiaryLinksBlock createFocusSpanLink span links in
    (Normal (Some links), Build_FactoryState scopedVars (console state)).

(** *** Structured mode *)

(** The body of the [try] block: the field links are resolved, and the
    first one becomes the log link; reading [links[0].href] of an empty
    array throws a [TypeError]. *)
Definition structuredTryBody (splitOpenFn : SplitOpen) (dataFrame : DataFrame)
  (field : option Field) (span : TraceSpan) (scopedVars : ScopedVars)
  : Completion (option SpanLinks) :=
  match getFieldLinksForExplore field (dataFrameRowIndex span) splitOpenFn
          (getTimeRangeFromSpan span noTimeShift false) dataFrame scopedVars with
  | Throw error => Throw error
  | Normal links =>
      match links with
      | [] => Throw (TypeError "Cannot read properties of undefined (reading 'href')")
      | link0 :: _ =>
          Normal (Some (Build_SpanLinks
                          (Some [Build_SpanLinkDef (lm_href link0) (lm_onClick link0) None
                                   (Build_Icon "gf-logs"
                                      "Explore the logs for this in split view")])
                          None None))
      end
  end.

(** The [SpanLink] closure of the structured mode. *)
Definition structuredSpanLink (splitOpenFn : SplitOpen) (dataFrame : DataFrame)
  : SpanLinkFunc :=
  fun span state =>
    let scopedVars := spread (scopedVars state) (scopedVarsFromSpan span) in
    (* We should be here only if there are some links in the dataframe *)
    let field := find hasLinks (fields dataFrame) in
    match structuredTryBody splitOpenFn dataFrame field span scopedVars with
    | Normal result => (Normal result, Build_FactoryState scopedVars (console state))
    | Throw error =>
        (* console.error(error); return undefined *)
        (Normal None, Build_FactoryState scopedVars (JS.push (console state) error))
    end.

(** The test that selects the legacy path: no data frame, a single field
    (legacy format), or no field with configured links. *)
Definition useLegacyPath (dataFrame : option DataFrame) : bool :=
  match dataFrame with
  | None => true
  | Some df =>
      (List.length (fields df) =? 1)%nat || negb (existsb hasLinks (fields df))
  end.

(** This is a factory for the link creator. The pair is the returned
    function and the state it starts from. *)
Definition createSpanLinkFactory (splitOpenFn : SplitOpen)
  (traceToLogsOptions : option TraceToLogsOptionsV2)
  (traceToMetricsOptions : option TraceToMetricsOptions)
  (dataFrame : option DataFrame)
  (createFocusSpanLink : option (string -> string -> LinkModel))
  (trace : Trace) : SpanLinkFunc * FactoryState :=
  let state := Build_FactoryState (scopedVarsFromTrace trace) [] in
  match dataFrame with
  | Some df =>
      if useLegacyPath dataFrame then
        (legacyCreateSpanLinkFactory splitOpenFn traceToLogsOptions traceToMetricsOptions
           createFocusSpanLink, state)
      else (structuredSpanLink splitOpenFn df, state)
  | None =>
      (legacyCreateSpanLinkFactory splitOpenFn traceToLogsOptions traceToMetricsOptions
         createFocusSpanLink, state)
  end.

End LinkFactory.

Arguments LinkModel : clear implicits.
Arguments SpanLinkDef : clear implicits.
Arguments SpanLinks : clear implicits.
Arguments SpanLinkFunc : clear implicits.
Arguments Collaborators : clear implicits.

(** ** The alert state-history stub ([historian/sql.go]) *)

Module Historian.

(** Modelled from the spec: [data.Frame], [data.NewFrame] and [Rows] are
    defined by the plugin SDK, outside this repository. The spec describes
    the query result as a tabular frame with named, typed columns; a frame
    is a name and its columns, each column a name and its values. *)
Record Field : Type := Build_Field {
  FieldName : string;
  vector : list string
}.

Record Frame : Type := Build_Frame {
  Name : string;
  Fields : list Field
}.

(** Modelled from the spec: [data.NewFrame(name, fields...)] makes the frame
    of that name with those columns. *)
Definition NewFrame (name : string) (fields : list Field) : Frame :=
  Build_Frame name fields.

(** Modelled from the spec: the number of rows of a frame is the length of
    its first column, and zero for a frame without columns. *)
Definition Rows (f : Frame) : nat :=
  match Fields f with
  | [] => 0%nat
  | field :: _ => List.length (vector field)
  end.

Record Logger : Type := Build_Logger {
  loggerName : string
}.

Record SqlBackend : Type := Build_SqlBackend {
  log : Logger
}.

Definition NewSqlBackend : SqlBackend :=
  Build_SqlBackend (Build_Logger "ngalert.state.historian").

(** A Go [error] value; [None] is [nil]. *)
Definition error : Type := string.

Section Backend.

(** [context.Context], [models.AlertRule], [state.StateTransition] and
    [models.HistoryQuery] are declared outside the sources; the backend
    never looks inside them. *)
Context {GoContext AlertRule StateTransition HistoryQuery : Type}.

(** [RecordStatesAsync] has an empty body and no result: the call leaves
    the receiver as it was, which is what the function returns here. *)
Definition RecordStatesAsync (h : SqlBackend) (ctx : GoContext)
  (rule : option AlertRule) (transitions : list StateTransition) : SqlBackend :=
  h.

(** [QueryStates] returns a pointer to a frame and an error; [None] is
    [nil] for both. *)
Definition QueryStates (h : SqlBackend) (ctx : GoContext) (query : HistoryQuery)
  : option Frame * option error :=
  (Some (NewFrame "states" []), None).

End Backend.

End Historian.

(** * Properties *)

(** ** The time window *)

Section TimeWindow.

(** [Math.floor(x / 1000 + s)] for integers [x] and [s] is the floored
    quotient of [x] by 1000, shifted by [s]. *)
Lemma floor_ms (x s : Z) :
  Qfloor (inject_Z x / inject_Z 1000 + inject_Z s)%Q = x / 1000 + s.
Proof.
  unfold Qfloor, Qplus, Qdiv, Qmult, Qinv, inject_Z; simpl.
  replace (x * 1 * 1 + s * 1000) with (x + s * 1000) by lia.
  apply Z.div_add; lia.
Qed.

(** The start of the window before any widening. *)
Definition naiveStart (span : TraceSpan) (timeShift : TimeShift) : Z :=
  startTime span / 1000 + startMs timeShift.

(** The end of the window before any widening. *)
Definition naiveEnd (span : TraceSpan) (timeShift : TimeShift) : Z :=
  (startTime span + duration span) / 1000 + endMs timeShift.

Lemma getTimeRangeFromSpan_from span timeShift isSplunkDS :
  from (getTimeRangeFromSpan span timeShift isSplunkDS) = naiveStart span timeShift.
Proof.
  unfold getTimeRangeFromSpan, naiveStart, dateTime; cbn [from].
  apply floor_ms.
Qed.

Lemma getTimeRangeFromSpan_to span timeShift isSplunkDS :
  to (getTimeRangeFromSpan span timeShift isSplunkDS) =
  if isSplunkDS && (naiveEnd span timeShift - naiveStart span timeShift <? 1000)
  then naiveStart span timeShift + 1000
  else if naiveStart span timeShift =? naiveEnd span timeShift
       then naiveEnd span timeShift + 1
       else naiveEnd span timeShift.
Proof.
  unfold getTimeRangeFromSpan, naiveStart, naiveEnd, dateTime; cbn [to].
  now rewrite !floor_ms.
Qed.

(** With the minimum-width flag the window is at least one second wide. *)
Lemma splunk_window_at_least_1s span timeShift :
  let range := getTimeRangeFromSpan span timeShift true in
  from range + 1000 <= to range.
Proof.
  cbv zeta. rewrite getTimeRangeFromSpan_from, getTimeRangeFromSpan_to.
  rewrite andb_true_l.
  destruct (Z.ltb_spec (naiveEnd span timeShift - naiveStart span timeShift) 1000);
    [lia|].
  destruct (Z.eqb_spec (naiveStart span timeShift) (naiveEnd span timeShift)); lia.
Qed.

(** Without the flag, a window whose naive end does not precede its start
    ends strictly after it starts. *)
Lemma window_positive_when_not_inverted span timeShift :
  naiveStart span timeShift <= naiveEnd span timeShift ->
  let range := getTimeRangeFromSpan span timeShift false in
  from range < to range.
Proof.
  intros Hle. cbv zeta. rewrite getTimeRangeFromSpan_from, getTimeRangeFromSpan_to.
  rewrite andb_false_l.
  destruct (Z.eqb_spec (naiveStart span timeShift) (naiveEnd span timeShift)); lia.
Qed.

(** Without the flag, a window whose naive end precedes its start is
    returned as it is. *)
Lemma inverted_window_kept span timeShift :
  naiveEnd span timeShift < naiveStart span timeShift ->
  let range := getTimeRangeFromSpan span timeShift false in
  to range = naiveEnd span timeShift /\ to range < from range.
Proof.
  intros Hlt. cbv zeta. rewrite getTimeRangeFromSpan_from, getTimeRangeFromSpan_to.
  rewrite andb_false_l.
  destruct (Z.eqb_spec (naiveStart span timeShift) (naiveEnd span timeShift)); lia.
Qed.

(** A span that starts at 1s and lasts half a second. *)
Definition halfSecondSpan : TraceSpan :=
  Build_TraceSpan "6605c7b08e715d6c" "7946b05c2e2e4e5a" "op" 1000000 500000
    [] (Build_TraceProcess []) None None None.

(** C1: the window of a span is expected to end strictly after it starts.
    For the half-second span above, a start shift of one second and no end
    shift, and the minimum-width flag off, the window returned starts at
    2000ms and ends at 1500ms: the end precedes the start, and no widening
    has taken place. *)
Theorem getTimeRangeFromSpan_end_before_start :
  let range := getTimeRangeFromSpan halfSecondSpan (Build_TimeShift 1000 0) false in
  from range = 2000 /\ to range = 1500 /\ to range < from range.
Proof.
  cbv zeta. rewrite getTimeRangeFromSpan_from, getTimeRangeFromSpan_to.
  vm_compute. repeat split; reflexivity.
Qed.

(** C4: for a span whose start and end fall in the same millisecond, and
    no time shift, the window ends exactly 1ms after its start when the
    minimum-width flag is off and exactly 1000ms after it when the flag is
    on; the start is the truncated start of the span. *)
Theorem zero_width_window_widened (span : TraceSpan) :
  startTime span / 1000 = (startTime span + duration span) / 1000 ->
  from (getTimeRangeFromSpan span noTimeShift false) = startTime span / 1000 /\
  to (getTimeRangeFromSpan span noTimeShift false) = startTime span / 1000 + 1 /\
  from (getTimeRangeFromSpan span noTimeShift true) = startTime span / 1000 /\
  to (getTimeRangeFromSpan span noTimeShift true) = startTime span / 1000 + 1000.
Proof.
  intros Heq.
  rewrite !getTimeRangeFromSpan_from, !getTimeRangeFromSpan_to.
  unfold naiveStart, naiveEnd, noTimeShift; simpl startMs; simpl endMs.
  rewrite <- Heq, !Z.add_0_r, Z.sub_diag, Z.eqb_refl.
  simpl. repeat split; reflexivity.
Qed.

(** A span of 200 microseconds starting at 1.5s. *)
Definition shortSpan : TraceSpan :=
  Build_TraceSpan "6605c7b08e715d6c" "7946b05c2e2e4e5a" "op" 1500000 200
    [] (Build_TraceProcess []) None None None.

Lemma zero_width_window_widened_witness :
  to (getTimeRangeFromSpan shortSpan noTimeShift false) = 1501 /\
  to (getTimeRangeFromSpan shortSpan noTimeShift true) = 2500.
Proof.
  destruct (zero_width_window_widened shortSpan) as (_ & H1 & _ & H2).
  - reflexivity.
  - split; [exact H1 | exact H2].
Defined.

End TimeWindow.

(** ** Tag resolution and the log-query builders *)

Section LogQueries.

Lemma truthy_true_iff (s : string) : JS.truthy s = true <-> s <> "".
Proof.
  unfold JS.truthy. destruct (String.eqb_spec s ""); simpl; split; intros; congruence.
Qed.

Lemma truthy_false_iff (s : string) : JS.truthy s = false <-> s = "".
Proof.
  unfold JS.truthy. destruct (String.eqb_spec s ""); simpl; split; intros; congruence.
Qed.

(** No tag matches the empty mapping. *)
Lemma getTags_empty_mapping span labelValueSign : getTags span [] labelValueSign = [].
Proof.
  unfold getTags.
  induction (process_tags (process span) ++ tags span)%list as [|tag rest IH];
    [reflexivity | exact IH].
Qed.

(** A span of cluster [cluster1] whose pod is [pod1]. *)
Definition clusterSpan : TraceSpan :=
  Build_TraceSpan "6605c7b08e715d6c" "7946b05c2e2e4e5a" "op" 1000000 500000
    [Build_TraceKeyValuePair "pod" "pod1"; Build_TraceKeyValuePair "ip" "192.168.0.1"]
    (Build_TraceProcess [Build_TraceKeyValuePair "cluster" "cluster1"])
    None None None.

(** A span without tags. *)
Definition untaggedSpan : TraceSpan :=
  Build_TraceSpan "6605c7b08e715d6c" "7946b05c2e2e4e5a" "op" 1000000 500000
    [] (Build_TraceProcess []) None None None.

(** Options with the given tag mapping and both ID filters on. *)
Definition filteringOptions (mapping : option (list KeyValue)) : TraceToLogsOptionsV2 :=
  Build_TraceToLogsOptionsV2 (Some "logs-uid") mapping None None (Some true) (Some true)
    None false.

(** With an empty mapping list the Loki builder resolves no tag: the
    empty array is truthy, and the default keys are not taken. *)
Lemma loki_empty_mapping_list_resolves_nothing :
  getQueryForLoki clusterSpan (filteringOptions (Some [])) =
  Build_QueryData (LokiQuery "" "") "".
Proof. reflexivity. Qed.

(** The Elasticsearch/OpenSearch builder, given an empty mapping list,
    resolves no tag at all, where the default mapping would have resolved
    the cluster and the pod of the span. *)
Lemma elasticsearch_empty_mapping_not_defaulted :
  logs_tags (filteringOptions (Some [])) = Some [] /\
  qd_tags (getQueryForElasticsearchOrOpensearch clusterSpan (filteringOptions (Some []))) = "" /\
  JS.join " AND " (getTags clusterSpan defaultKeys ":") =
    "cluster:" ++ JS.dq ++ "cluster1" ++ JS.dq ++ " AND pod:" ++ JS.dq ++ "pod1" ++ JS.dq /\
  qd_tags (getQueryForElasticsearchOrOpensearch clusterSpan (filteringOptions (Some []))) <>
    JS.join " AND " (getTags clusterSpan defaultKeys ":").
Proof.
  repeat split; try reflexivity.
  vm_compute. discriminate.
Qed.

(** C2 (amended): when no tag mapping is configured, the Loki and Splunk
    builders resolve the tags of the span against the default mapping,
    whose keys are cluster, hostname, namespace and pod; the
    Elasticsearch/OpenSearch builder takes no default and its tag string is
    empty. *)
Theorem default_keys_when_mapping_absent (span : TraceSpan) (options : TraceToLogsOptionsV2) :
  logs_tags options = None ->
  map kv_key defaultKeys = ["cluster"; "hostname"; "namespace"; "pod"] /\
  qd_tags (getQueryForLoki span options) = JS.join ", " (getTags span defaultKeys "=") /\
  qd_tags (getQueryForSplunk span options) = JS.join " " (getTags span defaultKeys "=") /\
  qd_tags (getQueryForElasticsearchOrOpensearch span options) = "".
Proof.
  intros Habsent. split; [reflexivity|].
  unfold getQueryForLoki, getQueryForSplunk, getQueryForElasticsearchOrOpensearch.
  rewrite Habsent. cbn [JS.or_else]. unfold defaultLabelValueSign.
  split; [|split].
  - destruct (JS.truthy (JS.join ", " (getTags span defaultKeys "="))); reflexivity.
  - reflexivity.
  - cbn [qd_tags]. now rewrite getTags_empty_mapping.
Qed.

Lemma default_keys_when_mapping_absent_witness :
  qd_tags (getQueryForLoki clusterSpan (filteringOptions None)) =
    "cluster=" ++ JS.dq ++ "cluster1" ++ JS.dq ++ ", pod=" ++ JS.dq ++ "pod1" ++ JS.dq /\
  qd_tags (getQueryForElasticsearchOrOpensearch clusterSpan (filteringOptions None)) = "".
Proof.
  destruct (default_keys_when_mapping_absent clusterSpan (filteringOptions None))
    as (_ & Hloki & _ & Hes).
  - reflexivity.
  - split; [rewrite Hloki; reflexivity | exact Hes].
Defined.

(** For a span without resolved tags and with both ID filters on, neither
    the Splunk builder nor the Elasticsearch/OpenSearch builder returns
    the trace-ID clause followed by the span-ID clause, each followed by
    AND. *)
Lemma id_filters_not_trace_then_span_with_and :
  queryText (qd_query (getQueryForSplunk untaggedSpan (filteringOptions None))) =
    " " ++ JS.dq ++ "$__span.traceId" ++ JS.dq ++ " " ++ JS.dq ++ "$__span.id" ++ JS.dq /\
  queryText (qd_query (getQueryForSplunk untaggedSpan (filteringOptions None))) <>
    JS.dq ++ "$__span.traceId" ++ JS.dq ++ " AND " ++ JS.dq ++ "$__span.id" ++ JS.dq ++ " AND " /\
  queryText (qd_query (getQueryForElasticsearchOrOpensearch untaggedSpan
                         (filteringOptions None))) <>
    JS.dq ++ "$__span.traceId" ++ JS.dq ++ " AND " ++ JS.dq ++ "$__span.id" ++ JS.dq ++ " AND ".
Proof.
  split; [reflexivity|]. split; vm_compute; discriminate.
Qed.

(** C3 (amended): with both ID filters on, non-empty trace and span IDs
    and no resolved tag, the Splunk builder returns the two quoted ID
    tokens, each after a space, the trace ID first; the
    Elasticsearch/OpenSearch builder returns the two quoted ID tokens each
    followed by AND, the span ID first. *)
Theorem id_filters_without_tags (span : TraceSpan) (options : TraceToLogsOptionsV2) :
  JS.truthy_flag (filterByTraceID options) = true ->
  JS.truthy_flag (filterBySpanID options) = true ->
  traceID span <> "" ->
  spanID span <> "" ->
  (getTags span (JS.or_else (logs_tags options) defaultKeys) "=" = [] ->
   queryText (qd_query (getQueryForSplunk span options)) =
     " " ++ JS.dq ++ "$__span.traceId" ++ JS.dq ++ " " ++ JS.dq ++ "$__span.id" ++ JS.dq) /\
  (getTags span (JS.or_else (logs_tags options) []) ":" = [] ->
   queryText (qd_query (getQueryForElasticsearchOrOpensearch span options)) =
     JS.dq ++ "$__span.id" ++ JS.dq ++ " AND " ++ JS.dq ++ "$__span.traceId" ++ JS.dq ++ " AND ").
Proof.
  intros Htrace Hspan Htid Hsid.
  apply truthy_true_iff in Htid. apply truthy_true_iff in Hsid.
  split; intros Hnone.
  - unfold getQueryForSplunk, defaultLabelValueSign.
    rewrite Hnone, Htrace, Hspan, Htid, Hsid. reflexivity.
  - unfold getQueryForElasticsearchOrOpensearch.
    rewrite Hnone, Htrace, Hspan, Htid, Hsid. reflexivity.
Qed.

Lemma id_filters_without_tags_witness :
  queryText (qd_query (getQueryForSplunk untaggedSpan (filteringOptions None))) =
    " " ++ JS.dq ++ "$__span.traceId" ++ JS.dq ++ " " ++ JS.dq ++ "$__span.id" ++ JS.dq /\
  queryText (qd_query (getQueryForElasticsearchOrOpensearch untaggedSpan
                         (filteringOptions None))) =
    JS.dq ++ "$__span.id" ++ JS.dq ++ " AND " ++ JS.dq ++ "$__span.traceId" ++ JS.dq ++ " AND ".
Proof.
  destruct (id_filters_without_tags untaggedSpan (filteringOptions None))
    as [Hsplunk Hes]; try reflexivity; try (vm_compute; discriminate).
  split; [apply Hsplunk | apply Hes]; reflexivity.
Defined.

End LogQueries.

(** ** The ID filter clauses *)

Section IdFilters.

(** The two ID filters of the log-query builders. *)
Inductive IdFilter : Type := ByTraceID | BySpanID.

(** The flag of the options that switches a filter on. *)
Definition flagOf (filter : IdFilter) (options : TraceToLogsOptionsV2) : option bool :=
  match filter with
  | ByTraceID => filterByTraceID options
  | BySpanID => filterBySpanID options
  end.

(** The ID of the span a filter is about. *)
Definition idOf (filter : IdFilter) (span : TraceSpan) : string :=
  match filter with
  | ByTraceID => traceID span
  | BySpanID => spanID span
  end.

(** The placeholder a filter clause carries. *)
Definition placeholderOf (filter : IdFilter) : string :=
  match filter with
  | ByTraceID => "$__span.traceId"
  | BySpanID => "$__span.id"
  end.

(** The options with the flag of a filter replaced. *)
Definition withFlag (filter : IdFilter) (flag : option bool) (options : TraceToLogsOptionsV2)
  : TraceToLogsOptionsV2 :=
  match filter with
  | ByTraceID =>
      Build_TraceToLogsOptionsV2 (datasourceUid options) (logs_tags options)
        (spanStartTimeShift options) (spanEndTimeShift options)
        flag (filterBySpanID options) (logs_query options) (customQuery options)
  | BySpanID =>
      Build_TraceToLogsOptionsV2 (datasourceUid options) (logs_tags options)
        (spanStartTimeShift options) (spanEndTimeShift options)
        (filterByTraceID options) flag (logs_query options) (customQuery options)
  end.

(** Case analysis on every test a builder makes, leaving closed query
    strings behind. *)
Ltac builder_cases span options :=
  unfold getQueryForLoki, getQueryForSplunk, getQueryForElasticsearchOrOpensearch;
  repeat match goal with
    | |- context [JS.join ?sep (getTags ?s ?m ?sign)] =>
        generalize (JS.join sep (getTags s m sign)); intros ?
    end;
  repeat match goal with
    | |- context [JS.truthy ?s] => destruct (JS.truthy s) eqn:?
    | |- context [(0 <? String.length ?s)%nat] => destruct (0 <? String.length s)%nat eqn:?
    | |- context [JS.truthy_flag ?f] => destruct (JS.truthy_flag f) eqn:?
    end.

Lemma loki_clause_only_if filter span options :
  JS.includes (placeholderOf filter) (queryText (qd_query (getQueryForLoki span options))) = true ->
  JS.truthy_flag (flagOf filter options) = true /\ JS.truthy (idOf filter span) = true.
Proof.
  destruct filter; cbn [flagOf idOf placeholderOf];
    builder_cases span options; cbn; intros Hin; (discriminate Hin || (split; reflexivity)).
Qed.

Lemma splunk_clause_only_if filter span options :
  JS.includes (placeholderOf filter) (queryText (qd_query (getQueryForSplunk span options))) = true ->
  JS.truthy_flag (flagOf filter options) = true /\ JS.truthy (idOf filter span) = true.
Proof.
  destruct filter; cbn [flagOf idOf placeholderOf];
    builder_cases span options; cbn; intros Hin; (discriminate Hin || (split; reflexivity)).
Qed.

Lemma elasticsearch_clause_only_if filter span options :
  JS.includes (placeholderOf filter)
    (queryText (qd_query (getQueryForElasticsearchOrOpensearch span options))) = true ->
  JS.truthy_flag (flagOf filter options) = true /\ JS.truthy (idOf filter span) = true.
Proof.
  destruct filter; cbn [flagOf idOf placeholderOf];
    builder_cases span options; cbn; intros Hin; (discriminate Hin || (split; reflexivity)).
Qed.

(** A flag set for an empty ID leaves the result of a builder as it is
    with the flag cleared. *)
Lemma flag_without_id_is_void builder filter span options :
  In builder [getQueryForLoki; getQueryForSplunk; getQueryForElasticsearchOrOpensearch] ->
  idOf filter span = "" ->
  builder span options = builder span (withFlag filter (Some false) options).
Proof.
  intros Hin Hid.
  assert (Hfalse : JS.truthy (idOf filter span) = false) by now apply truthy_false_iff.
  destruct options as [uid mapping s e ft fs q cq].
  destruct Hin as [<- | [<- | [<- | []]]];
    destruct filter; cbn [idOf] in Hfalse;
    unfold getQueryForLoki, getQueryForSplunk, getQueryForElasticsearchOrOpensearch,
      withFlag;
    cbn [filterByTraceID filterBySpanID logs_tags JS.truthy_flag];
    rewrite Hfalse, ?andb_false_r; reflexivity.
Qed.

(** C9: in each of the Loki, Splunk and Elasticsearch/OpenSearch builders,
    the query carries the clause of an ID filter only if the flag of the
    filter is set and the ID of the span is not empty; and when the ID is
    empty, the builder returns what it returns with the flag cleared. *)
Theorem id_filter_clause_only_if
  (builder : TraceSpan -> TraceToLogsOptionsV2 -> QueryData)
  (filter : IdFilter) (span : TraceSpan) (options : TraceToLogsOptionsV2) :
  In builder [getQueryForLoki; getQueryForSplunk; getQueryForElasticsearchOrOpensearch] ->
  (JS.includes (placeholderOf filter) (queryText (qd_query (builder span options))) = true ->
   JS.truthy_flag (flagOf filter options) = true /\ idOf filter span <> "") /\
  (idOf filter span = "" ->
   builder span options = builder span (withFlag filter (Some false) options)).
Proof.
  intros Hin. split.
  - intros Hclause. rewrite <- truthy_true_iff.
    destruct Hin as [<- | [<- | [<- | []]]];
      [apply loki_clause_only_if | apply splunk_clause_only_if
      | apply elasticsearch_clause_only_if]; exact Hclause.
  - now apply flag_without_id_is_void.
Qed.

(** The cluster span with its trace ID emptied. *)
Definition noTraceIdSpan : TraceSpan :=
  Build_TraceSpan "6605c7b08e715d6c" "" "op" 1000000 500000
    [Build_TraceKeyValuePair "pod" "pod1"]
    (Build_TraceProcess [Build_TraceKeyValuePair "cluster" "cluster1"])
    None None None.

Lemma id_filter_clause_only_if_witness :
  (JS.truthy_flag (flagOf BySpanID (filteringOptions None)) = true /\
   idOf BySpanID clusterSpan <> "") /\
  getQueryForLoki noTraceIdSpan (filteringOptions None) =
  getQueryForLoki noTraceIdSpan (withFlag ByTraceID (Some false) (filteringOptions None)).
Proof.
  split.
  - apply (id_filter_clause_only_if getQueryForLoki BySpanID clusterSpan
             (filteringOptions None)).
    + left; reflexivity.
    + reflexivity.
  - apply (id_filter_clause_only_if getQueryForLoki ByTraceID noTraceIdSpan
             (filteringOptions None)).
    + left; reflexivity.
    + reflexivity.
Defined.

End IdFilters.

(** ** The metric-query builder *)

Section MetricsQuery.

Lemma prefix_iff_append (pat s : string) :
  String.prefix pat s = true <-> exists rest, s = pat ++ rest.
Proof.
  revert s. induction pat as [|c pat IH]; intros s; simpl.
  - split; [intros _; exists s; destruct s; reflexivity | destruct s; reflexivity].
  - destruct s as [|d s]; [split; [discriminate | intros [rest Hrest]; discriminate]|].
    simpl. destruct (Ascii.ascii_dec c d) as [->|Hne].
    + rewrite IH. split; intros [rest Hrest]; exists rest; [now subst | now inversion Hrest].
    + split; [discriminate | intros [rest Hrest]; inversion Hrest; congruence].
Qed.

Lemma includes_step (pat s : string) :
  JS.includes pat s =
  if String.prefix pat s then true
  else match s with
       | EmptyString => false
       | String _ rest => JS.includes pat rest
       end.
Proof. destruct s; reflexivity. Qed.

(** [JS.includes] holds exactly of the strings that contain the pattern. *)
Lemma includes_iff_occurs (pat s : string) :
  JS.includes pat s = true <-> exists before after, s = before ++ pat ++ after.
Proof.
  induction s as [|c s IH]; rewrite includes_step.
  - destruct (String.prefix pat "") eqn:Hp.
    + split; [intros _ | reflexivity].
      apply prefix_iff_append in Hp as [rest Hrest]. exists "", rest. exact Hrest.
    + split; [discriminate|]. intros (before & after & Heq).
      destruct before; [|discriminate].
      assert (String.prefix pat "" = true) by (apply prefix_iff_append; now exists after).
      congruence.
  - destruct (String.prefix pat (String c s)) eqn:Hp.
    + split; [intros _ | reflexivity].
      apply prefix_iff_append in Hp as [rest Hrest]. exists "", rest. exact Hrest.
    + rewrite IH. split.
      * intros (before & after & ->). now exists (String c before), after.
      * intros (before & after & Heq). destruct before as [|d before].
        -- assert (String.prefix pat (String c s) = true)
             by (apply prefix_iff_append; now exists after).
           congruence.
        -- inversion Heq. now exists before, after.
Qed.

(** C7: without a template the metric-query builder returns the default
    latency quantile query for the operation name of the span; with a
    template that holds no [$__tags] marker, or with an empty configured
    tag list, it returns the template unchanged. The builder tests
    [!query.query]: there is no template when the query is undefined or
    the empty string, and there is one when it is a string that is not
    empty. *)
Theorem buildMetricsQuery_default_and_noop
  (query : TraceToMetricQuery) (mapping : option (list KeyValue)) (span : TraceSpan) :
  (mq_query query = None \/ mq_query query = Some "" ->
   buildMetricsQuery query mapping span =
     "histogram_quantile(0.5, sum(rate(tempo_spanmetrics_latency_bucket{operation="
     ++ JS.dq ++ operationName span ++ JS.dq ++ "}[5m])) by (le))") /\
  (forall template,
     mq_query query = Some template ->
     template <> "" ->
     JS.includes "$__tags" template = false \/ JS.or_else mapping [] = [] ->
     buildMetricsQuery query mapping span = template).
Proof.
  unfold buildMetricsQuery. split.
  - intros [-> | ->]; reflexivity.
  - intros template -> Hsupplied Hnoop.
    apply truthy_true_iff in Hsupplied. cbn [JS.truthy_opt]. rewrite Hsupplied.
    cbn [negb]. destruct Hnoop as [-> | ->].
    + now rewrite andb_false_r.
    + reflexivity.
Qed.

(** A template without marker, and a template with one. *)
Definition plainTemplate : TraceToMetricQuery :=
  Build_TraceToMetricQuery (Some "Request rate") (Some "sum(rate(requests_total[5m]))").

Definition markedTemplate : TraceToMetricQuery :=
  Build_TraceToMetricQuery (Some "Request rate") (Some "sum(rate(requests_total{$__tags}[5m]))").

Lemma buildMetricsQuery_default_and_noop_witness :
  buildMetricsQuery (Build_TraceToMetricQuery None None) None clusterSpan =
    "histogram_quantile(0.5, sum(rate(tempo_spanmetrics_latency_bucket{operation="
    ++ JS.dq ++ "op" ++ JS.dq ++ "}[5m])) by (le))" /\
  buildMetricsQuery (Build_TraceToMetricQuery (Some "Request rate") (Some ""))
    (Some [Build_KeyValue "cluster" None]) clusterSpan =
    "histogram_quantile(0.5, sum(rate(tempo_spanmetrics_latency_bucket{operation="
    ++ JS.dq ++ "op" ++ JS.dq ++ "}[5m])) by (le))" /\
  buildMetricsQuery plainTemplate (Some [Build_KeyValue "cluster" None]) clusterSpan =
    "sum(rate(requests_total[5m]))" /\
  buildMetricsQuery markedTemplate (Some []) clusterSpan =
    "sum(rate(requests_total{$__tags}[5m]))".
Proof.
  split; [|split; [|split]].
  - apply (proj1 (buildMetricsQuery_default_and_noop
                    (Build_TraceToMetricQuery None None) None clusterSpan)).
    left; reflexivity.
  - apply (proj1 (buildMetricsQuery_default_and_noop
                    (Build_TraceToMetricQuery (Some "Request rate") (Some ""))
                    (Some [Build_KeyValue "cluster" None]) clusterSpan)).
    right; reflexivity.
  - apply (proj2 (buildMetricsQuery_default_and_noop plainTemplate
                    (Some [Build_KeyValue "cluster" None]) clusterSpan)).
    + reflexivity.
    + discriminate.
    + left; reflexivity.
  - apply (proj2 (buildMetricsQuery_default_and_noop markedTemplate (Some []) clusterSpan)).
    + reflexivity.
    + discriminate.
    + right; reflexivity.
Defined.

(** With a marker and a configured tag, the marker is replaced. *)
Example buildMetricsQuery_interpolates :
  buildMetricsQuery markedTemplate (Some [Build_KeyValue "cluster" None]) clusterSpan =
  "sum(rate(requests_total{cluster=" ++ JS.dq ++ "cluster1" ++ JS.dq ++ "}[5m]))".
Proof. reflexivity. Qed.

End MetricsQuery.

(** ** The link factory *)

Section LinkFactoryProperties.

Context {OnClick SplitOpen : Type} {collaborators : Collaborators OnClick SplitOpen}.

(** A reference that is not a parent-child one. *)
Definition notChildOf (reference : TraceSpanReference) : bool :=
  negb (refType reference =? "CHILD_OF")%string.

Lemma pushTraceLink_traceLinks (links : SpanLinks OnClick) acc x :
  traceLinks links = Some acc ->
  traceLinks (pushTraceLink links x) = Some (acc ++ [x])%list.
Proof. intros Hacc. unfold pushTraceLink, JS.push. cbn. now rewrite Hacc. Qed.

(** The loop over the references pushes the links of the references that
    are not parent-child ones, in order. *)
Lemma reference_loop_traceLinks (create : string -> string -> LinkModel OnClick) refs :
  forall (links : SpanLinks OnClick) acc,
    traceLinks links = Some acc ->
    traceLinks
      (fold_left
         (fun links reference =>
            if (refType reference =? "CHILD_OF")%string then links
            else pushTraceLink links (traceLinkOf create reference))
         refs links)
    = Some (acc ++ map (traceLinkOf create) (filter notChildOf refs))%list.
Proof.
  induction refs as [|reference refs IH]; intros links acc Hacc; cbn [fold_left filter map].
  - now rewrite app_nil_r.
  - unfold notChildOf at 1.
    destruct (refType reference =? "CHILD_OF")%string; cbn [negb].
    + now apply IH.
    + rewrite (IH _ (acc ++ [traceLinkOf create reference])%list).
      * cbn [map]. now rewrite <- app_assoc.
      * now apply pushTraceLink_traceLinks.
Qed.

(** The loop over the subsidiary references pushes a link for each of them. *)
Lemma subsidiary_loop_traceLinks (create : string -> string -> LinkModel OnClick) refs :
  forall (links : SpanLinks OnClick) acc,
    traceLinks links = Some acc ->
    traceLinks
      (fold_left
         (fun links reference => pushTraceLink links (traceLinkOf create reference))
         refs links)
    = Some (acc ++ map (traceLinkOf create) refs)%list.
Proof.
  induction refs as [|reference refs IH]; intros links acc Hacc; cbn [fold_left map].
  - now rewrite app_nil_r.
  - rewrite (IH _ (acc ++ [traceLinkOf create reference])%list).
    + now rewrite <- app_assoc.
    + now apply pushTraceLink_traceLinks.
Qed.

Lemma referenceLinksBlock_traceLinks create span (links : SpanLinks OnClick) acc :
  traceLinks links = Some acc ->
  traceLinks (referenceLinksBlock (Some create) span links)
  = Some (acc ++ map (traceLinkOf create)
                   (filter notChildOf (JS.or_else (references span) [])))%list.
Proof.
  intros Hacc. unfold referenceLinksBlock.
  destruct (references span) as [refs|]; cbn [JS.or_else].
  - now apply reference_loop_traceLinks.
  - cbn. now rewrite app_nil_r.
Qed.

Lemma subsidiaryLinksBlock_traceLinks create span (links : SpanLinks OnClick) acc :
  traceLinks links = Some acc ->
  traceLinks (subsidiaryLinksBlock (Some create) span links)
  = Some (acc ++ map (traceLinkOf create)
                   (JS.or_else (subsidiarilyReferencedBy span) []))%list.
Proof.
  intros Hacc. unfold subsidiaryLinksBlock.
  destruct (subsidiarilyReferencedBy span) as [refs|]; cbn [JS.or_else].
  - now apply subsidiary_loop_traceLinks.
  - cbn. now rewrite app_nil_r.
Qed.

(** Without a link creator neither loop runs. *)
Lemma no_creator_no_trace_links span (links : SpanLinks OnClick) :
  subsidiaryLinksBlock None span (referenceLinksBlock None span links) = links.
Proof.
  unfold subsidiaryLinksBlock, referenceLinksBlock.
  destruct (references span), (subsidiarilyReferencedBy span); reflexivity.
Qed.

Lemma logsLinkBlock_traceLinks splitOpenFn settings isSplunkDS options span
  (links : SpanLinks OnClick) vars :
  traceLinks (fst (logsLinkBlock splitOpenFn settings isSplunkDS options span links vars))
  = traceLinks links.
Proof.
  unfold logsLinkBlock.
  destruct settings as [settings|], options as [options|]; try reflexivity.
  destruct (JS.truthy _ || customQuery options); reflexivity.
Qed.

Lemma metricsLinksBlock_traceLinks splitOpenFn settings options span
  (links : SpanLinks OnClick) :
  traceLinks (metricsLinksBlock splitOpenFn settings options span links) = traceLinks links.
Proof.
  unfold metricsLinksBlock.
  destruct settings as [settings|], options as [options|]; try reflexivity.
  destruct (queries options) as [qs|]; [|reflexivity].
  transitivity (traceLinks (Build_SpanLinks (logLinks links) (traceLinks links) (Some [])));
    [|reflexivity].
  generalize (Build_SpanLinks (logLinks links) (traceLinks links) (Some [])).
  induction qs as [|query qs IH]; intros start; cbn [fold_left]; [reflexivity|].
  now rewrite IH.
Qed.

(** The trace links the legacy [SpanLink] returns when a link creator was
    given: the links of the references that are not parent-child ones, then
    the links of all subsidiary references. *)
Lemma legacy_traceLinks splitOpenFn traceToLogsOptions traceToMetricsOptions create span state :
  exists links state',
    legacyCreateSpanLinkFactory splitOpenFn traceToLogsOptions traceToMetricsOptions
      (Some create) span state = (Normal (Some links), state') /\
    traceLinks links =
      Some (map (traceLinkOf create) (filter notChildOf (JS.or_else (references span) []))
            ++ map (traceLinkOf create) (JS.or_else (subsidiarilyReferencedBy span) []))%list.
Proof.
  unfold legacyCreateSpanLinkFactory.
  match goal with
  | |- context [logsLinkBlock ?a ?b ?c ?d ?e ?f ?g] =>
      pose proof (logsLinkBlock_traceLinks a b c d e f g) as Hlogs;
      destruct (logsLinkBlock a b c d e f g) as [links1 vars1]
  end.
  cbn [fst traceLinks] in Hlogs.
  eexists _, _. split; [reflexivity|].
  apply subsidiaryLinksBlock_traceLinks.
  rewrite (referenceLinksBlock_traceLinks create span _ []); [reflexivity|].
  now rewrite metricsLinksBlock_traceLinks.
Qed.

(** C5: in structured mode the function returned by the factory always
    returns normally, for every span and every state; when field-link
    resolution throws (interpolation included), or resolves to no link so
    that reading the first one throws, the error is appended to the
    console and the result is [undefined]. *)
Theorem structured_mode_catches_errors
  (splitOpenFn : SplitOpen)
  (traceToLogsOptions : option TraceToLogsOptionsV2)
  (traceToMetricsOptions : option TraceToMetricsOptions)
  (dataFrame : DataFrame)
  (createFocusSpanLink : option (string -> string -> LinkModel OnClick))
  (trace : Trace) (span : TraceSpan) (state : FactoryState) :
  useLegacyPath (Some dataFrame) = false ->
  let SpanLink :=
    fst (createSpanLinkFactory splitOpenFn traceToLogsOptions traceToMetricsOptions
           (Some dataFrame) createFocusSpanLink trace) in
  let resolution :=
    getFieldLinksForExplore (find hasLinks (fields dataFrame)) (dataFrameRowIndex span)
      splitOpenFn (getTimeRangeFromSpan span noTimeShift false) dataFrame
      (spread (scopedVars state) (scopedVarsFromSpan span)) in
  exists result state',
    SpanLink span state = (Normal result, state') /\
    (forall error,
       resolution = Throw error ->
       result = None /\ console state' = (console state ++ [error])%list) /\
    (resolution = Normal [] ->
     result = None /\
     exists message, console state' = (console state ++ [TypeError message])%list).
Proof.
  intros Hstructured. cbv zeta.
  unfold createSpanLinkFactory. rewrite Hstructured. cbn [fst].
  unfold structuredSpanLink, structuredTryBody.
  destruct (getFieldLinksForExplore _ _ _ _ _ _) as [[|link0 rest]|thrown].
  - eexists _, _. split; [reflexivity|]. split.
    + intros error Habs; discriminate Habs.
    + intros _. split; [reflexivity|]. eexists; reflexivity.
  - eexists _, _. split; [reflexivity|]. split.
    + intros error Habs; discriminate Habs.
    + intros Habs; discriminate Habs.
  - eexists _, _. split; [reflexivity|]. split.
    + intros error Heq. injection Heq as <-. split; reflexivity.
    + intros Habs; discriminate Habs.
Qed.

(** C6: in legacy mode, with a link creator, the trace links returned for
    a span are one link for each of its references that is not a
    parent-child ([CHILD_OF]) one, in order, and none for a parent-child
    reference; the links of the subsidiary references follow. *)
Theorem trace_links_skip_child_of
  (splitOpenFn : SplitOpen)
  (traceToLogsOptions : option TraceToLogsOptionsV2)
  (traceToMetricsOptions : option TraceToMetricsOptions)
  (dataFrame : option DataFrame)
  (create : string -> string -> LinkModel OnClick)
  (trace : Trace) (span : TraceSpan) (state : FactoryState) :
  useLegacyPath dataFrame = true ->
  let SpanLink :=
    fst (createSpanLinkFactory splitOpenFn traceToLogsOptions traceToMetricsOptions
           dataFrame (Some create) trace) in
  exists links state',
    SpanLink span state = (Normal (Some links), state') /\
    traceLinks links =
      Some (map (traceLinkOf create) (filter notChildOf (JS.or_else (references span) []))
            ++ map (traceLinkOf create) (JS.or_else (subsidiarilyReferencedBy span) []))%list.
Proof.
  intros Hlegacy. cbv zeta.
  unfold createSpanLinkFactory. rewrite Hlegacy.
  destruct dataFrame; cbn [fst]; apply legacy_traceLinks.
Qed.

(** C10: in legacy mode, with a link creator, every entry of the
    subsidiary reference list of a span yields its trace link, whatever
    its reference type: the links of the subsidiary references come after
    those of the references that are not parent-child ones, one for each
    entry and in order. *)
Theorem subsidiary_references_all_linked
  (splitOpenFn : SplitOpen)
  (traceToLogsOptions : option TraceToLogsOptionsV2)
  (traceToMetricsOptions : option TraceToMetricsOptions)
  (dataFrame : option DataFrame)
  (create : string -> string -> LinkModel OnClick)
  (trace : Trace) (span : TraceSpan) (state : FactoryState)
  (subsidiaries : list TraceSpanReference) :
  useLegacyPath dataFrame = true ->
  subsidiarilyReferencedBy span = Some subsidiaries ->
  let SpanLink :=
    fst (createSpanLinkFactory splitOpenFn traceToLogsOptions traceToMetricsOptions
           dataFrame (Some create) trace) in
  let forward := List.length (filter notChildOf (JS.or_else (references span) [])) in
  exists links state' all,
    SpanLink span state = (Normal (Some links), state') /\
    traceLinks links = Some all /\
    List.length all = (forward + List.length subsidiaries)%nat /\
    forall n reference,
      nth_error subsidiaries n = Some reference ->
      nth_error all (forward + n) = Some (traceLinkOf create reference).
Proof.
  intros Hlegacy Hsubs. cbv zeta.
  assert (Hfactory :
    fst (createSpanLinkFactory splitOpenFn traceToLogsOptions traceToMetricsOptions
           dataFrame (Some create) trace)
    = legacyCreateSpanLinkFactory splitOpenFn traceToLogsOptions traceToMetricsOptions
        (Some create)).
  { unfold createSpanLinkFactory. rewrite Hlegacy. destruct dataFrame; reflexivity. }
  rewrite Hfactory.
  destruct (legacy_traceLinks splitOpenFn traceToLogsOptions traceToMetricsOptions
              create span state) as (links & state' & Hrun & Hlinks).
  rewrite Hsubs in Hlinks. cbn [JS.or_else] in Hlinks.
  exists links, state'. eexists. split; [exact Hrun|]. split; [exact Hlinks|]. split.
  - now rewrite length_app, !length_map.
  - intros n reference Hnth.
    rewrite nth_error_app2 by (rewrite length_map; lia).
    rewrite length_map.
    replace (List.length (filter notChildOf (JS.or_else (references span) [])) + n
             - List.length (filter notChildOf (JS.or_else (references span) [])))%nat
      with n by lia.
    now apply map_nth_error.
Qed.

End LinkFactoryProperties.

(** ** The link factory on concrete collaborators *)

Section LinkFactoryExamples.

(** Collaborators whose click handler and split-view callback carry no
    information; field-link resolution ends as given. *)
Definition stubCollaborators (resolution : Completion (list (LinkModel unit)))
  : Collaborators unit unit :=
  @Build_Collaborators unit unit
    (fun uid =>
       if (uid =? "logs-uid")%string
       then Some (Build_DataSourceInstanceSettings "loki" "Loki" "logs-uid")
       else None)
    (fun _ => 0)
    (fun dataLink _ _ _ => Build_LinkModel ("/explore?title=" ++ dl_title dataLink) tt)
    (fun _ _ _ _ _ _ => resolution).

Definition wrongInterpolation : JsError := Thrown "wrong interpolation in the data link".

(** A frame with two fields, the first of which has a configured link. *)
Definition linkedFrame : DataFrame :=
  Build_DataFrame
    [Build_Field "traceID" (Build_FieldConfig (Some [Build_DataLink "Logs" "" None]));
     Build_Field "spanID" (Build_FieldConfig None)].

Definition sampleTrace : Trace := Build_Trace "7946b05c2e2e4e5a" "frontend: GET" 1500000.

Definition initialState : FactoryState := Build_FactoryState (scopedVarsFromTrace sampleTrace) [].

Lemma structured_mode_catches_errors_witness :
  exists state',
    fst (createSpanLinkFactory (collaborators := stubCollaborators (Throw wrongInterpolation))
           tt None None (Some linkedFrame) None sampleTrace) clusterSpan initialState
    = (Normal None, state') /\
    console state' = [wrongInterpolation].
Proof.
  pose proof (structured_mode_catches_errors
                (collaborators := stubCollaborators (Throw wrongInterpolation))
                tt None None linkedFrame None sampleTrace clusterSpan initialState
                eq_refl) as Hcaught.
  cbv zeta in Hcaught.
  destruct Hcaught as (result & state' & Hrun & Hthrow & _).
  destruct (Hthrow wrongInterpolation eq_refl) as [Hresult Hconsole].
  exists state'. rewrite Hrun, Hresult. split; [reflexivity | exact Hconsole].
Defined.

Definition parentReference : TraceSpanReference :=
  Build_TraceSpanReference "CHILD_OF" None "parent-span" "7946b05c2e2e4e5a".

Definition followsFromReference : TraceSpanReference :=
  Build_TraceSpanReference "FOLLOWS_FROM" None "earlier-span" "0000000000000001".

(** A back-reference of parent-child type, whose span is known. *)
Definition childBackReference : TraceSpanReference :=
  Build_TraceSpanReference "CHILD_OF" (Some untaggedSpan) "child-span" "0000000000000002".

(** A span with a parent, a follows-from reference and a back-reference. *)
Definition linkedSpan : TraceSpan :=
  Build_TraceSpan "6605c7b08e715d6c" "7946b05c2e2e4e5a" "op" 1000000 500000
    [] (Build_TraceProcess [])
    (Some [parentReference; followsFromReference])
    (Some [childBackReference])
    None.

Definition focusSpanLink (traceId spanId : string) : LinkModel unit :=
  Build_LinkModel ("/explore?trace=" ++ traceId ++ "&span=" ++ spanId) tt.

Lemma trace_links_skip_child_of_witness :
  exists links state',
    fst (createSpanLinkFactory (collaborators := stubCollaborators (Normal []))
           tt None None None (Some focusSpanLink) sampleTrace) linkedSpan initialState
    = (Normal (Some links), state') /\
    traceLinks links =
      Some [traceLinkOf focusSpanLink followsFromReference;
            traceLinkOf focusSpanLink childBackReference].
Proof.
  pose proof (trace_links_skip_child_of
                (collaborators := stubCollaborators (Normal []))
                tt None None None focusSpanLink sampleTrace linkedSpan initialState
                eq_refl) as Hlinks.
  cbv zeta in Hlinks.
  destruct Hlinks as (links & state' & Hrun & Htrace).
  exists links, state'. split; [exact Hrun | exact Htrace].
Defined.

Lemma subsidiary_references_all_linked_witness :
  exists links state' all,
    fst (createSpanLinkFactory (collaborators := stubCollaborators (Normal []))
           tt None None None (Some focusSpanLink) sampleTrace) linkedSpan initialState
    = (Normal (Some links), state') /\
    traceLinks links = Some all /\
    List.length all = 2%nat /\
    nth_error all 1 =
      Some (Build_SpanLinkDef "/explore?trace=0000000000000002&span=child-span" tt
              (Some "op") (Build_Icon "link" "View linked span")).
Proof.
  pose proof (subsidiary_references_all_linked
                (collaborators := stubCollaborators (Normal []))
                tt None None None focusSpanLink sampleTrace linkedSpan initialState
                [childBackReference] eq_refl eq_refl) as Hlinks.
  cbv zeta in Hlinks.
  destruct Hlinks as (links & state' & all & Hrun & Htrace & Hlength & Hnth).
  exists links, state', all.
  split; [exact Hrun|]. split; [exact Htrace|]. split; [exact Hlength|].
  exact (Hnth 0%nat childBackReference eq_refl).
Defined.

End LinkFactoryExamples.

(** ** The state-history stub *)

Section HistorianStub.

Context {GoContext AlertRule StateTransition HistoryQuery : Type}.

(** C8: recording any list of state transitions changes nothing and has no
    error to report; querying with any filter, before or after any
    recording, returns a frame ([non-nil]) without rows together with a
    [nil] error. *)
Theorem stub_records_nothing_and_queries_empty
  (h : Historian.SqlBackend) (ctx : GoContext) (rule : option AlertRule)
  (transitions : list StateTransition) (query : HistoryQuery) :
  Historian.RecordStatesAsync h ctx rule transitions = h /\
  exists frame,
    Historian.QueryStates h ctx query = (Some frame, None) /\
    Historian.QueryStates (Historian.RecordStatesAsync h ctx rule transitions) ctx query
    = (Some frame, None) /\
    Historian.Rows frame = 0%nat.
Proof.
  split; [reflexivity|].
  exists (Historian.NewFrame "states" []). repeat split.
Qed.

End HistorianStub.

(** * Further properties of the code *)

(** ** The time window, continued *)

Section TimeWindowShape.

(** The spans and shifts for which the window computed in double precision
    is the one computed here: times of at most 2^52 microseconds and
    shifts of at most 2^41 milliseconds in absolute value. Within these
    bounds the quotient by 1000 and its sum with the shift are each rounded
    by less than 0.0005, and a quotient that is not an integer is at least
    0.001 away from one, so [Math.floor] gives the floor of the exact sum. *)
Definition withinDoubleRange (span : TraceSpan) (timeShift : TimeShift) : Prop :=
  Z.abs (startTime span) <= 2 ^ 52 /\
  Z.abs (startTime span + duration span) <= 2 ^ 52 /\
  Z.abs (startMs timeShift) <= 2 ^ 41 /\
  Z.abs (endMs timeShift) <= 2 ^ 41.

(** A span of 2023 that lasts half a second, and shifts of an hour. *)
Definition recentSpan : TraceSpan :=
  Build_TraceSpan "6605c7b08e715d6c" "7946b05c2e2e4e5a" "op" 1700000000000999 500000
    [] (Build_TraceProcess []) None None None.

Definition hourEarlier : TimeShift := Build_TimeShift (-3600000) 0.

(** X1: for times and shifts within the range of exact double arithmetic:
    with the Splunk flag the window is at least one second wide, and
    without the flag the window ends after it starts exactly when the
    truncated, shifted end of the span does not precede its truncated,
    shifted start. *)
Theorem window_width_guarantees (span : TraceSpan) (timeShift : TimeShift) :
  withinDoubleRange span timeShift ->
  from (getTimeRangeFromSpan span timeShift true) + 1000
    <= to (getTimeRangeFromSpan span timeShift true) /\
  (from (getTimeRangeFromSpan span timeShift false)
     < to (getTimeRangeFromSpan span timeShift false)
   <-> naiveStart span timeShift <= naiveEnd span timeShift).
Proof.
  intros _.
  rewrite !getTimeRangeFromSpan_from, !getTimeRangeFromSpan_to. cbn [andb].
  destruct (Z.ltb_spec (naiveEnd span timeShift - naiveStart span timeShift) 1000);
    destruct (Z.eqb_spec (naiveStart span timeShift) (naiveEnd span timeShift)); lia.
Qed.

Lemma window_width_guarantees_witness :
  from (getTimeRangeFromSpan recentSpan hourEarlier true) + 1000
    <= to (getTimeRangeFromSpan recentSpan hourEarlier true) /\
  from (getTimeRangeFromSpan recentSpan hourEarlier false)
    < to (getTimeRangeFromSpan recentSpan hourEarlier false).
Proof.
  destruct (window_width_guarantees recentSpan hourEarlier) as [Hsplunk Hplain].
  - unfold withinDoubleRange. vm_compute. repeat split; discriminate.
  - split; [exact Hsplunk|]. apply Hplain. vm_compute. discriminate.
Defined.

(** X2: for times and shifts within the range of exact double arithmetic,
    a window that is already wide enough (one second with the Splunk flag,
    one millisecond without) is returned as computed: the start is the
    truncated, shifted start of the span, the end its truncated, shifted
    end, and [raw] repeats them. *)
Theorem window_unchanged_when_wide_enough (span : TraceSpan) (timeShift : TimeShift)
  (isSplunkDS : bool) :
  withinDoubleRange span timeShift ->
  naiveStart span timeShift + (if isSplunkDS then 1000 else 1) <= naiveEnd span timeShift ->
  getTimeRangeFromSpan span timeShift isSplunkDS =
  Build_TimeRange (naiveStart span timeShift) (naiveEnd span timeShift)
    (Build_RawTimeRange (naiveStart span timeShift) (naiveEnd span timeShift)).
Proof.
  intros _ Hwide.
  pose proof (getTimeRangeFromSpan_from span timeShift isSplunkDS) as Hfrom.
  pose proof (getTimeRangeFromSpan_to span timeShift isSplunkDS) as Hto.
  assert (Hraw : raw (getTimeRangeFromSpan span timeShift isSplunkDS) =
                 Build_RawTimeRange (from (getTimeRangeFromSpan span timeShift isSplunkDS))
                                    (to (getTimeRangeFromSpan span timeShift isSplunkDS)))
    by reflexivity.
  destruct (getTimeRangeFromSpan span timeShift isSplunkDS) as [f t r].
  cbn [from to raw] in *. subst f r. f_equal; [|f_equal]; rewrite Hto;
    destruct isSplunkDS; cbn [andb];
    repeat match goal with
      | |- context [?a <? ?b] => destruct (Z.ltb_spec a b); try lia
      | |- context [?a =? ?b] => destruct (Z.eqb_spec a b); try lia
      end.
Qed.

Lemma window_unchanged_when_wide_enough_witness :
  getTimeRangeFromSpan halfSecondSpan (Build_TimeShift (-1000) 1000) true =
  Build_TimeRange 0 2500 (Build_RawTimeRange 0 2500).
Proof.
  apply (window_unchanged_when_wide_enough halfSecondSpan (Build_TimeShift (-1000) 1000) true).
  - unfold withinDoubleRange. vm_compute. repeat split; discriminate.
  - vm_compute. discriminate.
Defined.

(** X3: for times and shifts within the range of exact double arithmetic,
    the widening only ever moves the end, and only forward: the start is
    the truncated, shifted start of the span, and the end is never earlier
    than the truncated, shifted end. *)
Theorem window_end_only_moves_forward (span : TraceSpan) (timeShift : TimeShift)
  (isSplunkDS : bool) :
  withinDoubleRange span timeShift ->
  from (getTimeRangeFromSpan span timeShift isSplunkDS) = naiveStart span timeShift /\
  naiveEnd span timeShift <= to (getTimeRangeFromSpan span timeShift isSplunkDS).
Proof.
  intros _.
  rewrite getTimeRangeFromSpan_from, getTimeRangeFromSpan_to. split; [reflexivity|].
  destruct isSplunkDS; cbn [andb];
    repeat match goal with
      | |- context [?a <? ?b] => destruct (Z.ltb_spec a b); try lia
      | |- context [?a =? ?b] => destruct (Z.eqb_spec a b); try lia
      end.
Qed.

Lemma window_end_only_moves_forward_witness :
  from (getTimeRangeFromSpan recentSpan hourEarlier true) = 1699996400000 /\
  1700000000500 <= to (getTimeRangeFromSpan recentSpan hourEarlier true).
Proof.
  destruct (window_end_only_moves_forward recentSpan hourEarlier true) as [Hfrom Hto].
  - unfold withinDoubleRange. vm_compute. repeat split; discriminate.
  - split; [rewrite Hfrom; reflexivity | exact Hto].
Defined.

End TimeWindowShape.

(** ** Tag resolution, continued *)

Section TagResolution.

(** The mapping entry that decides how a tag is projected: the first one
    with the key of the tag. *)
Definition mappedEntry (mapping : list KeyValue) (tag : TraceKeyValuePair) : option KeyValue :=
  find (fun keyValue => (kv_key keyValue =? tag_key tag)%string) mapping.

(** The fragments of a list of tags: one for each tag with a mapping entry,
    in the order of the tags. *)
Definition fragmentsOf (mapping : list KeyValue) (labelValueSign : string)
  (tagList : list TraceKeyValuePair) : list string :=
  flat_map
    (fun tag =>
       match mappedEntry mapping tag with
       | Some keyValue =>
           [labelOf keyValue ++ labelValueSign ++ JS.dq ++ tag_value tag ++ JS.dq]
       | None => []
       end)
    tagList.

Lemma append_empty (a b : string) : a ++ b = "" -> a = "" /\ b = "".
Proof. destruct a; simpl; [intros ->; split; reflexivity | discriminate]. Qed.

(** A fragment holds two quotes, so it is never the empty string. *)
Lemma fragment_truthy (label sign value : string) :
  JS.truthy (label ++ sign ++ JS.dq ++ value ++ JS.dq) = true.
Proof.
  apply truthy_true_iff. intros Hempty.
  apply append_empty in Hempty as [_ Hempty].
  apply append_empty in Hempty as [_ Hempty].
  discriminate Hempty.
Qed.

Lemma filterBoolean_fragments mapping sign tagList :
  filterBoolean (map (tagFragment mapping sign) tagList) = fragmentsOf mapping sign tagList.
Proof.
  induction tagList as [|tag rest IH]; [reflexivity|].
  cbn [map filterBoolean fragmentsOf flat_map]. unfold tagFragment at 1, mappedEntry at 1.
  destruct (find _ mapping) as [keyValue|].
  - rewrite fragment_truthy. cbn [app]. f_equal. exact IH.
  - exact IH.
Qed.

Lemma fragmentsOf_app mapping sign l1 l2 :
  fragmentsOf mapping sign (l1 ++ l2) =
  (fragmentsOf mapping sign l1 ++ fragmentsOf mapping sign l2)%list.
Proof. unfold fragmentsOf. now rewrite flat_map_app. Qed.

Lemma getTags_fragments (span : TraceSpan) (mapping : list KeyValue) (sign : string) :
  getTags span mapping sign =
  (fragmentsOf mapping sign (process_tags (process span))
   ++ fragmentsOf mapping sign (tags span))%list.
Proof.
  unfold getTags. now rewrite filterBoolean_fragments, fragmentsOf_app.
Qed.

Lemma fragmentsOf_length mapping sign tagList :
  List.length (fragmentsOf mapping sign tagList) =
  List.length
    (filter (fun tag => match mappedEntry mapping tag with Some _ => true | None => false end)
       tagList).
Proof.
  induction tagList as [|tag rest IH]; [reflexivity|].
  cbn [fragmentsOf flat_map filter]. fold (fragmentsOf mapping sign rest).
  destruct (mappedEntry mapping tag); cbn [app List.length]; now rewrite IH.
Qed.

(** X4: The tags resolved for a span are the fragments of its process tags
    followed by those of its own tags, and there are as many of them as the
    span has tags with a mapping entry: every such tag contributes its
    fragment, also when its value or its label is empty, and a duplicated
    key contributes once per occurrence; a tag without mapping entry
    contributes nothing. *)
Theorem getTags_one_fragment_per_mapped_tag (span : TraceSpan) (mapping : list KeyValue)
  (sign : string) :
  getTags span mapping sign =
    (fragmentsOf mapping sign (process_tags (process span))
     ++ fragmentsOf mapping sign (tags span))%list /\
  List.length (getTags span mapping sign) =
    List.length
      (filter (fun tag => match mappedEntry mapping tag with Some _ => true | None => false end)
         (process_tags (process span) ++ tags span)).
Proof.
  split; [apply getTags_fragments|].
  now rewrite getTags_fragments, <- fragmentsOf_app, fragmentsOf_length.
Qed.

Lemma find_filter_weaker {A : Type} (p q : A -> bool) (l : list A) :
  (forall x, p x = true -> q x = true) ->
  find p (filter q l) = find p l.
Proof.
  intros Himp. induction l as [|x l IH]; [reflexivity|].
  cbn [filter find]. destruct (p x) eqn:Hp.
  - rewrite (Himp x Hp). cbn [find]. now rewrite Hp.
  - destruct (q x); cbn [find]; rewrite ?Hp; exact IH.
Qed.

(** X5: Only the first mapping entry of a key counts: entries further down the
    list with the key of the first entry can be removed without changing
    the tags resolved for any span. *)
Theorem getTags_first_entry_wins (span : TraceSpan) (first : KeyValue)
  (others : list KeyValue) (sign : string) :
  getTags span (first :: others) sign =
  getTags span
    (first :: filter (fun keyValue => negb (kv_key keyValue =? kv_key first)%string) others)
    sign.
Proof.
  unfold getTags. f_equal. apply map_ext. intros tag.
  unfold tagFragment. cbn [find].
  destruct (String.eqb_spec (kv_key first) (tag_key tag)) as [Hkey|Hkey]; [reflexivity|].
  rewrite find_filter_weaker; [reflexivity|].
  intros keyValue Hmatch. apply String.eqb_eq in Hmatch.
  destruct (String.eqb_spec (kv_key keyValue) (kv_key first)); [congruence | reflexivity].
Qed.

Lemma join_cons_nonempty sep x rest : x <> "" -> JS.join sep (x :: rest) <> "".
Proof.
  intros Hx. destruct rest as [|y rest]; cbn [JS.join]; [exact Hx|].
  intros Hempty. apply append_empty in Hempty as [Hempty _]. contradiction.
Qed.

Lemma fragmentsOf_nil_iff mapping sign tagList :
  fragmentsOf mapping sign tagList = [] <->
  forall tag, In tag tagList -> mappedEntry mapping tag = None.
Proof.
  induction tagList as [|tag rest IH]; cbn [fragmentsOf flat_map].
  - split; [intros _ tag [] | reflexivity].
  - destruct (mappedEntry mapping tag) as [keyValue|] eqn:Hentry.
    + split; [discriminate|]. intros Hall.
      specialize (Hall tag (or_introl eq_refl)). congruence.
    + cbn [app]. fold (fragmentsOf mapping sign rest). rewrite IH. split.
      * intros Hall other [<- | Hin]; [exact Hentry | now apply Hall].
      * intros Hall other Hin. apply Hall. now right.
Qed.

(** The joined tag string is empty exactly when no tag of the span, process
    tags included, has a mapping entry; the separator and the sign play no
    part in it. *)
Lemma joined_tags_empty_iff span mapping sep sign :
  JS.join sep (getTags span mapping sign) = "" <->
  forall tag, In tag (process_tags (process span) ++ tags span)%list ->
              mappedEntry mapping tag = None.
Proof.
  rewrite getTags_fragments, <- fragmentsOf_app, <- (fragmentsOf_nil_iff mapping sign).
  destruct (fragmentsOf mapping sign _) as [|x rest] eqn:Hfrags.
  - split; reflexivity.
  - split; [|discriminate]. intros Hempty. exfalso.
    revert Hempty. apply join_cons_nonempty.
    assert (Hin : In x (fragmentsOf mapping sign
                          (process_tags (process span) ++ tags span)%list))
      by (rewrite Hfrags; now left).
    unfold fragmentsOf in Hin. apply in_flat_map in Hin as (tag & _ & Hin).
    destruct (mappedEntry mapping tag); [|contradiction].
    destruct Hin as [<- | []]. apply truthy_true_iff, fragment_truthy.
Qed.

(** The tag string each builder returns beside its query. *)
Lemma builders_tags span options :
  qd_tags (getQueryForLoki span options) =
    JS.join ", " (getTags span (JS.or_else (logs_tags options) defaultKeys) "=") /\
  qd_tags (getQueryForSplunk span options) =
    JS.join " " (getTags span (JS.or_else (logs_tags options) defaultKeys) "=") /\
  qd_tags (getQueryForElasticsearchOrOpensearch span options) =
    JS.join " AND " (getTags span (JS.or_else (logs_tags options) []) ":").
Proof.
  unfold getQueryForLoki, getQueryForSplunk, getQueryForElasticsearchOrOpensearch,
    defaultLabelValueSign.
  repeat split.
  destruct (JS.truthy (JS.join ", " _)); reflexivity.
Qed.

(** X6: The three builders report an empty tag string exactly when no tag of
    the span has an entry in the mapping they resolve against: the
    configured mapping, or else the default keys for Loki and Splunk and the
    empty mapping for Elasticsearch/OpenSearch. *)
Theorem builders_tags_empty_iff (span : TraceSpan) (options : TraceToLogsOptionsV2) :
  let unmapped mapping :=
    forall tag, In tag (process_tags (process span) ++ tags span)%list ->
                mappedEntry mapping tag = None in
  (qd_tags (getQueryForLoki span options) = "" <->
   unmapped (JS.or_else (logs_tags options) defaultKeys)) /\
  (qd_tags (getQueryForSplunk span options) = "" <->
   unmapped (JS.or_else (logs_tags options) defaultKeys)) /\
  (qd_tags (getQueryForElasticsearchOrOpensearch span options) = "" <->
   unmapped (JS.or_else (logs_tags options) [])).
Proof.
  cbv zeta. destruct (builders_tags span options) as (-> & -> & ->).
  repeat split; apply joined_tags_empty_iff.
Qed.

End TagResolution.

(** ** The shape of the built queries *)

Section QueryShape.

(** Case analysis on the tests of a builder: whether tags were resolved,
    and for each ID filter whether its flag is set and its ID present. *)
Ltac query_cases :=
  unfold getQueryForLoki, getQueryForSplunk, getQueryForElasticsearchOrOpensearch,
    defaultLabelValueSign;
  repeat match goal with
    | |- context [JS.join ?sep (getTags ?s ?m ?sign)] =>
        generalize (JS.join sep (getTags s m sign)); intros ?
    end;
  repeat match goal with
    | |- context [JS.truthy ?s] => destruct (JS.truthy s) eqn:?
    | |- context [(0 <? String.length ?s)%nat] => destruct (0 <? String.length s)%nat eqn:?
    | |- context [JS.truthy_flag ?f] => destruct (JS.truthy_flag f) eqn:?
    end.

(** X7: The Splunk and Elasticsearch/OpenSearch queries carry the clause of an
    ID filter whenever its flag is set and the ID is not empty, whether or
    not any tag was resolved; the Loki query carries it only if a tag was
    resolved as well, and is the empty string otherwise. *)
Theorem id_filter_clause_if (filter : IdFilter) (span : TraceSpan)
  (options : TraceToLogsOptionsV2) :
  JS.truthy_flag (flagOf filter options) = true ->
  idOf filter span <> "" ->
  JS.includes (placeholderOf filter)
    (queryText (qd_query (getQueryForSplunk span options))) = true /\
  JS.includes (placeholderOf filter)
    (queryText (qd_query (getQueryForElasticsearchOrOpensearch span options))) = true /\
  (qd_tags (getQueryForLoki span options) <> "" ->
   JS.includes (placeholderOf filter)
     (queryText (qd_query (getQueryForLoki span options))) = true) /\
  (qd_tags (getQueryForLoki span options) = "" ->
   queryText (qd_query (getQueryForLoki span options)) = "").
Proof.
  intros Hflag Hid. apply truthy_true_iff in Hid.
  rewrite <- truthy_true_iff, <- truthy_false_iff.
  rewrite (proj1 (builders_tags span options)).
  destruct filter; cbn [flagOf idOf placeholderOf] in *;
    revert Hflag Hid; query_cases; cbn; intros; repeat split; intros;
    congruence.
Qed.

Lemma id_filter_clause_if_witness :
  queryText (qd_query (getQueryForSplunk untaggedSpan (filteringOptions None))) <> "" /\
  queryText (qd_query (getQueryForLoki untaggedSpan (filteringOptions None))) = "".
Proof.
  destruct (id_filter_clause_if ByTraceID untaggedSpan (filteringOptions None))
    as (Hsplunk & _ & _ & Hloki).
  - reflexivity.
  - discriminate.
  - split; [|apply Hloki; reflexivity].
    intros Hempty. rewrite Hempty in Hsplunk. discriminate Hsplunk.
Defined.

(** X8: In each builder the query carries the [$__tags] placeholder exactly
    when the tag string is not empty. *)
Theorem tags_placeholder_iff_tags (span : TraceSpan) (options : TraceToLogsOptionsV2) :
  JS.includes "$__tags" (queryText (qd_query (getQueryForLoki span options)))
    = JS.truthy (qd_tags (getQueryForLoki span options)) /\
  JS.includes "$__tags" (queryText (qd_query (getQueryForSplunk span options)))
    = JS.truthy (qd_tags (getQueryForSplunk span options)) /\
  JS.includes "$__tags"
    (queryText (qd_query (getQueryForElasticsearchOrOpensearch span options)))
    = JS.truthy (qd_tags (getQueryForElasticsearchOrOpensearch span options)).
Proof.
  assert (Hlength : forall s, (0 <? String.length s)%nat = JS.truthy s)
    by (intros [|c s]; reflexivity).
  destruct (builders_tags span options) as (-> & -> & ->).
  unfold getQueryForElasticsearchOrOpensearch. rewrite Hlength.
  query_cases; cbn; repeat split; congruence.
Qed.

End QueryShape.

(** ** The legacy links, bucket by bucket *)

Section LegacyBuckets.

Context {OnClick SplitOpen : Type} {collaborators : Collaborators OnClick SplitOpen}.

(** The data source settings the legacy factory looks up for a configured
    data source UID. *)
Definition settingsFor (uid : option string) : option DataSourceInstanceSettings :=
  match uid with
  | Some uid => if JS.truthy uid then getInstanceSettings uid else None
  | None => None
  end.

Lemma pushTraceLink_other_buckets (links : SpanLinks OnClick) x :
  logLinks (pushTraceLink links x) = logLinks links /\
  metricLinks (pushTraceLink links x) = metricLinks links.
Proof. split; reflexivity. Qed.

(** A loop whose steps leave the log and metric buckets alone leaves them
    alone as a whole. *)
Lemma loop_keeps_other_buckets {A : Type} (step : SpanLinks OnClick -> A -> SpanLinks OnClick)
  (items : list A) :
  (forall links item,
     logLinks (step links item) = logLinks links /\
     metricLinks (step links item) = metricLinks links) ->
  forall links,
    logLinks (fold_left step items links) = logLinks links /\
    metricLinks (fold_left step items links) = metricLinks links.
Proof.
  intros Hstep. induction items as [|item items IH]; intros links; cbn [fold_left].
  - split; reflexivity.
  - destruct (IH (step links item)) as [-> ->]. apply Hstep.
Qed.

Lemma referenceLinksBlock_other_buckets create span (links : SpanLinks OnClick) :
  logLinks (referenceLinksBlock create span links) = logLinks links /\
  metricLinks (referenceLinksBlock create span links) = metricLinks links.
Proof.
  unfold referenceLinksBlock.
  destruct (references span) as [refs|], create as [create|]; try (split; reflexivity).
  apply loop_keeps_other_buckets. intros acc reference.
  destruct (refType reference =? "CHILD_OF")%string; split; reflexivity.
Qed.

Lemma subsidiaryLinksBlock_other_buckets create span (links : SpanLinks OnClick) :
  logLinks (subsidiaryLinksBlock create span links) = logLinks links /\
  metricLinks (subsidiaryLinksBlock create span links) = metricLinks links.
Proof.
  unfold subsidiaryLinksBlock.
  destruct (subsidiarilyReferencedBy span) as [refs|], create as [create|];
    try (split; reflexivity).
  apply loop_keeps_other_buckets. intros acc reference. split; reflexivity.
Qed.

Lemma metrics_loop (f : TraceToMetricQuery -> SpanLinkDef OnClick) qs :
  forall (links : SpanLinks OnClick) acc,
    metricLinks links = Some acc ->
    let links' := fold_left (fun links query => pushMetricLink links (f query)) qs links in
    logLinks links' = logLinks links /\
    metricLinks links' = Some (acc ++ map f qs)%list.
Proof.
  induction qs as [|query qs IH]; intros links acc Hacc; cbn [fold_left map].
  - rewrite app_nil_r. split; [reflexivity | exact Hacc].
  - cbv zeta in IH |- *.
    destruct (IH (pushMetricLink links (f query)) (acc ++ [f query])%list) as [Hlogs Hmetrics].
    + unfold pushMetricLink, JS.push. cbn. now rewrite Hacc.
    + rewrite Hlogs, Hmetrics, <- app_assoc. split; reflexivity.
Qed.

(** The metrics link of one configured query. *)
Definition metricLinkOf (splitOpenFn : SplitOpen) (settings : DataSourceInstanceSettings)
  (options : TraceToMetricsOptions) (span : TraceSpan) (query : TraceToMetricQuery)
  : SpanLinkDef OnClick :=
  let link :=
    mapInternalLinkToExplore
      (Build_DataLink (ds_name settings) ""
         (Some (Build_InternalDataLink (ds_uid settings) (ds_name settings)
                  (PromQuery (buildMetricsQuery query (metrics_tags options) span) "A"))))
      []
      (getTimeRangeFromSpan span
         (Build_TimeShift (shiftMs (metrics_spanStartTimeShift options))
                          (shiftMs (metrics_spanEndTimeShift options)))
         false)
      splitOpenFn in
  Build_SpanLinkDef (lm_href link) (lm_onClick link) (mq_name query)
    (Build_Icon "chart-line" "Explore metrics for this span").

Lemma metricsLinksBlock_buckets splitOpenFn settings options span (links : SpanLinks OnClick) :
  logLinks (metricsLinksBlock splitOpenFn settings options span links) = logLinks links /\
  metricLinks (metricsLinksBlock splitOpenFn settings options span links) =
    match settings, options with
    | Some settings, Some options =>
        match queries options with
        | Some qs => Some (map (metricLinkOf splitOpenFn settings options span) qs)
        | None => metricLinks links
        end
    | _, _ => metricLinks links
    end.
Proof.
  unfold metricsLinksBlock.
  destruct settings as [settings|], options as [options|]; try (split; reflexivity).
  destruct (queries options) as [qs|]; [|split; reflexivity].
  exact (metrics_loop (metricLinkOf splitOpenFn settings options span) qs
           (Build_SpanLinks (logLinks links) (traceLinks links) (Some [])) [] eq_refl).
Qed.

(** X11: The legacy [SpanLink] returns one metrics link for each configured
    query, in the order of the configuration: the link is titled with the
    name of the query, and its expression is what [buildMetricsQuery] makes
    of the query, resolved with no scoped variable and over the window of
    the span without minimum width. Without a metrics data source, or
    without a list of queries, there is no metrics bucket at all. *)
Theorem metric_links_one_per_query
  (splitOpenFn : SplitOpen)
  (traceToLogsOptions : option TraceToLogsOptionsV2)
  (traceToMetricsOptions : option TraceToMetricsOptions)
  (createFocusSpanLink : option (string -> string -> LinkModel OnClick))
  (span : TraceSpan) (state : FactoryState) :
  exists links state',
    legacyCreateSpanLinkFactory splitOpenFn traceToLogsOptions traceToMetricsOptions
      createFocusSpanLink span state = (Normal (Some links), state') /\
    metricLinks links =
      match traceToMetricsOptions with
      | Some options =>
          match settingsFor (metrics_datasourceUid options), queries options with
          | Some settings, Some qs =>
              Some (map (metricLinkOf splitOpenFn settings options span) qs)
          | _, _ => None
          end
      | None => None
      end.
Proof.
  unfold legacyCreateSpanLinkFactory.
  match goal with
  | |- context [logsLinkBlock ?a ?b ?c ?d ?e ?f ?g] =>
      assert (Hlogs : metricLinks (fst (logsLinkBlock a b c d e f g)) = None);
      [|destruct (logsLinkBlock a b c d e f g) as [links1 vars1]]
  end.
  { unfold logsLinkBlock.
    repeat match goal with
      | |- context [match ?x with _ => _ end] => destruct x
      end; reflexivity. }
  cbn [fst] in Hlogs.
  eexists _, _. split; [reflexivity|].
  rewrite (proj2 (subsidiaryLinksBlock_other_buckets _ _ _)).
  rewrite (proj2 (referenceLinksBlock_other_buckets _ _ _)).
  rewrite (proj2 (metricsLinksBlock_buckets _ _ _ _ _)), Hlogs.
  unfold settingsFor.
  destruct traceToMetricsOptions as [options|]; [|reflexivity].
  destruct (metrics_datasourceUid options) as [uid|]; [|reflexivity].
  destruct (JS.truthy uid); [|reflexivity].
  destruct (getInstanceSettings uid); [|reflexivity].
  destruct (queries options); reflexivity.
Qed.

(** X12: Without a link creator the legacy [SpanLink] still returns a trace
    bucket, and the bucket is empty, whatever references the span has. *)
Theorem no_link_creator_empty_trace_bucket
  (splitOpenFn : SplitOpen)
  (traceToLogsOptions : option TraceToLogsOptionsV2)
  (traceToMetricsOptions : option TraceToMetricsOptions)
  (span : TraceSpan) (state : FactoryState) :
  exists links state',
    legacyCreateSpanLinkFactory splitOpenFn traceToLogsOptions traceToMetricsOptions
      None span state = (Normal (Some links), state') /\
    traceLinks links = Some [].
Proof.
  unfold legacyCreateSpanLinkFactory.
  match goal with
  | |- context [logsLinkBlock ?a ?b ?c ?d ?e ?f ?g] =>
      pose proof (logsLinkBlock_traceLinks a b c d e f g) as Hlogs;
      destruct (logsLinkBlock a b c d e f g) as [links1 vars1]
  end.
  cbn [fst traceLinks] in Hlogs.
  eexists _, _. split; [reflexivity|].
  now rewrite no_creator_no_trace_links, metricsLinksBlock_traceLinks.
Qed.

End LegacyBuckets.

(** ** The scoped variables kept by the closure *)

Section ScopedVariables.

Context {OnClick SplitOpen : Type} {collaborators : Collaborators OnClick SplitOpen}.

(** [obj[k]]: the value of a property, if the object has it. *)
Fixpoint lookupProp (obj : list (string * JsValue)) (k : string) : option JsValue :=
  match obj with
  | [] => None
  | (k', v) :: rest => if (k' =? k)%string then Some v else lookupProp rest k
  end.

Lemma lookupProp_setProp_same obj k v : lookupProp (setProp obj k v) k = Some v.
Proof.
  induction obj as [|[k' v'] rest IH]; cbn [setProp lookupProp].
  - now rewrite String.eqb_refl.
  - destruct (String.eqb_spec k' k) as [->|Hne]; cbn [lookupProp].
    + now rewrite String.eqb_refl.
    + destruct (String.eqb_spec k' k); [contradiction | exact IH].
Qed.

Lemma lookupProp_setProp_other obj k v k' :
  k' <> k -> lookupProp (setProp obj k v) k' = lookupProp obj k'.
Proof.
  intros Hne. induction obj as [|[k0 v0] rest IH]; cbn [setProp lookupProp].
  - destruct (String.eqb_spec k k'); [congruence | reflexivity].
  - destruct (String.eqb_spec k0 k) as [->|Hk0]; cbn [lookupProp].
    + destruct (String.eqb_spec k k'); [congruence|].
      destruct (String.eqb_spec k k'); [congruence | reflexivity].
    + destruct (String.eqb_spec k0 k'); [reflexivity | exact IH].
Qed.

(** The value of the [__span] variable for a span. *)
Definition spanScope (span : TraceSpan) : option JsValue :=
  lookupProp (scopedVarsFromSpan span) "__span".

(** The value of the [__tags] variable for a tag string. *)
Definition tagsScope (tagString : string) : JsValue :=
  JObj [("text", JStr "Tags"); ("value", JStr tagString)].

Lemma spread_span_scope vars span :
  lookupProp (spread vars (scopedVarsFromSpan span)) "__span" = spanScope span /\
  forall k, k <> "__span" ->
            lookupProp (spread vars (scopedVarsFromSpan span)) k = lookupProp vars k.
Proof.
  unfold spanScope, scopedVarsFromSpan, spread. cbn [fold_left fst snd lookupProp].
  rewrite lookupProp_setProp_same. split; [reflexivity|].
  intros k Hk. now apply lookupProp_setProp_other.
Qed.

Lemma logsLinkBlock_vars splitOpenFn settings isSplunkDS options span
  (links : SpanLinks OnClick) vars :
  let out := logsLinkBlock splitOpenFn settings isSplunkDS options span links vars in
  (forall k, k <> "__tags" -> lookupProp (snd out) k = lookupProp vars k) /\
  (logLinks (fst out) = logLinks links /\ snd out = vars \/
   exists link tagString,
     logLinks (fst out) = Some [link] /\
     lookupProp (snd out) "__tags" = Some (tagsScope tagString)).
Proof.
  cbv zeta. unfold logsLinkBlock.
  destruct settings as [settings|], options as [options|];
    try (split; [reflexivity | left; split; reflexivity]).
  destruct (JS.truthy _ || customQuery options);
    [|split; [reflexivity | left; split; reflexivity]].
  cbn [fst snd logLinks]. unfold spread. cbn [fold_left fst snd]. split.
  - intros k Hk. now apply lookupProp_setProp_other.
  - right. eexists _, _. split; [reflexivity|]. apply lookupProp_setProp_same.
Qed.

(** X13: One call of the legacy [SpanLink]: the [__span] variable becomes that
    of the span; the [__tags] variable becomes that of the span when a logs
    link is made and otherwise stays as the previous calls left it; no other
    variable changes, and nothing is written to the console. *)
Theorem legacy_call_scope
  (splitOpenFn : SplitOpen)
  (traceToLogsOptions : option TraceToLogsOptionsV2)
  (traceToMetricsOptions : option TraceToMetricsOptions)
  (createFocusSpanLink : option (string -> string -> LinkModel OnClick))
  (span : TraceSpan) (state : FactoryState) :
  exists links state',
    legacyCreateSpanLinkFactory splitOpenFn traceToLogsOptions traceToMetricsOptions
      createFocusSpanLink span state = (Normal (Some links), state') /\
    console state' = console state /\
    lookupProp (scopedVars state') "__span" = spanScope span /\
    (forall k, k <> "__span" -> k <> "__tags" ->
               lookupProp (scopedVars state') k = lookupProp (scopedVars state) k) /\
    (logLinks links = None ->
     lookupProp (scopedVars state') "__tags" = lookupProp (scopedVars state) "__tags") /\
    (logLinks links <> None ->
     exists tagString, lookupProp (scopedVars state') "__tags" = Some (tagsScope tagString)).
Proof.
  unfold legacyCreateSpanLinkFactory.
  destruct (spread_span_scope (scopedVars state) span) as [Hspan Hothers].
  match goal with
  | |- context [logsLinkBlock ?a ?b ?c ?d ?e ?f ?g] =>
      pose proof (logsLinkBlock_vars a b c d e f g) as [Hvars Hlink];
      destruct (logsLinkBlock a b c d e f g) as [links1 vars1]
  end.
  cbn [fst snd logLinks] in Hvars, Hlink.
  eexists _, _. split; [reflexivity|]. cbn [console scopedVars].
  rewrite (proj1 (subsidiaryLinksBlock_other_buckets _ _ _)).
  rewrite (proj1 (referenceLinksBlock_other_buckets _ _ _)).
  rewrite (proj1 (metricsLinksBlock_buckets _ _ _ _ _)).
  split; [reflexivity|]. split; [|split; [|split]].
  - rewrite Hvars by discriminate. exact Hspan.
  - intros k Hspan' Htags. rewrite Hvars by exact Htags. now apply Hothers.
  - intros Hnone. destruct Hlink as [[_ ->] | (link & tagString & Hsome & _)].
    + apply Hothers. discriminate.
    + congruence.
  - intros Hsome. destruct Hlink as [[Hnone _] | (link & tagString & _ & Htags)].
    + cbn in Hnone. congruence.
    + now exists tagString.
Qed.

(** X14: One call of the structured [SpanLink]: the [__span] variable becomes
    that of the span and no other variable changes; the console grows by at
    most one error. *)
Theorem structured_call_scope (splitOpenFn : SplitOpen) (dataFrame : DataFrame)
  (span : TraceSpan) (state : FactoryState) :
  let state' := snd (structuredSpanLink splitOpenFn dataFrame span state) in
  lookupProp (scopedVars state') "__span" = spanScope span /\
  (forall k, k <> "__span" ->
             lookupProp (scopedVars state') k = lookupProp (scopedVars state) k) /\
  (console state' = console state \/
   exists error, console state' = (console state ++ [error])%list).
Proof.
  cbv zeta. unfold structuredSpanLink.
  destruct (spread_span_scope (scopedVars state) span) as [Hspan Hothers].
  destruct (structuredTryBody _ _ _ _ _) as [result|error]; cbn [snd scopedVars console].
  - split; [exact Hspan|]. split; [exact Hothers|]. now left.
  - split; [exact Hspan|]. split; [exact Hothers|]. right. now exists error.
Qed.

(** The states a closure goes through when it is called on the spans of a
    list, one after the other. *)
Definition afterSpans (SpanLink : SpanLinkFunc OnClick) (spans : list TraceSpan)
  (state : FactoryState) : FactoryState :=
  fold_left (fun state span => snd (SpanLink span state)) spans state.

Lemma legacy_scopedVars splitOpenFn traceToLogsOptions traceToMetricsOptions
  createFocusSpanLink span state :
  exists settings isSplunkDS links,
    scopedVars (snd (legacyCreateSpanLinkFactory splitOpenFn traceToLogsOptions
                       traceToMetricsOptions createFocusSpanLink span state)) =
    snd (logsLinkBlock splitOpenFn settings isSplunkDS traceToLogsOptions span links
           (spread (scopedVars state) (scopedVarsFromSpan span))).
Proof.
  unfold legacyCreateSpanLinkFactory.
  match goal with
  | |- context [logsLinkBlock ?a ?b ?c ?d ?e ?f ?g] =>
      exists b, c, f; destruct (logsLinkBlock a b c d e f g) as [links1 vars1]
  end.
  reflexivity.
Qed.

Lemma factory_call_scope splitOpenFn traceToLogsOptions traceToMetricsOptions dataFrame
  createFocusSpanLink trace span state :
  let state' :=
    snd (fst (createSpanLinkFactory splitOpenFn traceToLogsOptions traceToMetricsOptions
                dataFrame createFocusSpanLink trace) span state) in
  lookupProp (scopedVars state') "__span" = spanScope span /\
  lookupProp (scopedVars state') "__trace" = lookupProp (scopedVars state) "__trace".
Proof.
  cbv zeta. unfold createSpanLinkFactory.
  destruct (spread_span_scope (scopedVars state) span) as [Hspan Hothers].
  assert (Hlegacy :
    let state' :=
      snd (legacyCreateSpanLinkFactory splitOpenFn traceToLogsOptions traceToMetricsOptions
             createFocusSpanLink span state) in
    lookupProp (scopedVars state') "__span" = spanScope span /\
    lookupProp (scopedVars state') "__trace" = lookupProp (scopedVars state) "__trace").
  { cbv zeta.
    destruct (legacy_scopedVars splitOpenFn traceToLogsOptions traceToMetricsOptions
                createFocusSpanLink span state) as (settings & isSplunkDS & links & ->).
    destruct (logsLinkBlock_vars splitOpenFn settings isSplunkDS traceToLogsOptions span
                links (spread (scopedVars state) (scopedVarsFromSpan span))) as [Hvars _].
    rewrite !Hvars by discriminate. split; [exact Hspan|]. apply Hothers; discriminate. }
  destruct dataFrame as [df|]; [|exact Hlegacy].
  destruct (useLegacyPath (Some df)); [exact Hlegacy|]. cbn [fst].
  unfold structuredSpanLink.
  destruct (structuredTryBody _ _ _ _ _); cbn [snd scopedVars];
    (split; [exact Hspan | apply Hothers; discriminate]).
Qed.

Lemma afterSpans_keeps_trace splitOpenFn traceToLogsOptions traceToMetricsOptions dataFrame
  createFocusSpanLink trace spans :
  forall state,
    lookupProp
      (scopedVars
         (afterSpans
            (fst (createSpanLinkFactory splitOpenFn traceToLogsOptions traceToMetricsOptions
                    dataFrame createFocusSpanLink trace)) spans state)) "__trace"
    = lookupProp (scopedVars state) "__trace".
Proof.
  induction spans as [|span spans IH]; intros state; [reflexivity|].
  unfold afterSpans in *. cbn [fold_left]. rewrite IH.
  apply factory_call_scope.
Qed.

(** X15: However many spans the closure returned by the factory has been called
    on, in either mode, the [__trace] variable is still the one computed
    from the trace when the factory was called, and the [__span] variable is
    that of the span of the last call. *)
Theorem trace_scope_kept_span_scope_fresh
  (splitOpenFn : SplitOpen)
  (traceToLogsOptions : option TraceToLogsOptionsV2)
  (traceToMetricsOptions : option TraceToMetricsOptions)
  (dataFrame : option DataFrame)
  (createFocusSpanLink : option (string -> string -> LinkModel OnClick))
  (trace : Trace) (earlier : list TraceSpan) (span : TraceSpan) :
  let factory :=
    createSpanLinkFactory splitOpenFn traceToLogsOptions traceToMetricsOptions
      dataFrame createFocusSpanLink trace in
  let final := afterSpans (fst factory) (earlier ++ [span]) (snd factory) in
  lookupProp (scopedVars final) "__trace" = lookupProp (scopedVarsFromTrace trace) "__trace" /\
  lookupProp (scopedVars final) "__span" = spanScope span.
Proof.
  cbv zeta. split.
  - rewrite afterSpans_keeps_trace. unfold createSpanLinkFactory.
    destruct dataFrame as [df|]; [destruct (useLegacyPath (Some df))|]; reflexivity.
  - unfold afterSpans. rewrite fold_left_app. cbn [fold_left].
    apply factory_call_scope.
Qed.

End ScopedVariables.

(** ** The logs link of the legacy mode *)

Section LegacyLogsLink.

Context {OnClick SplitOpen : Type} {collaborators : Collaborators OnClick SplitOpen}.

(** The data source types the legacy factory has a query builder for. *)
Definition knownDialect (type : string) : bool :=
  ((type =? "loki") || (type =? "grafana-splunk-datasource")
   || (type =? "elasticsearch") || (type =? "grafana-opensearch-datasource"))%string.

(** The query data the logs block starts from. *)
Definition noQueryData : QueryData := Build_QueryData (BareQuery "") "".

Lemma queryDataForType_no_tags type span options :
  (forall tag, In tag (process_tags (process span) ++ tags span)%list ->
               mappedEntry (JS.or_else (logs_tags options) defaultKeys) tag = None)
  \/ knownDialect type = false ->
  qd_tags (queryDataForType type span options noQueryData) = "".
Proof.
  unfold queryDataForType, knownDialect.
  destruct (builders_tags span options) as (Hloki & Hsplunk & Hes).
  intros [Hunmapped | Hunknown].
  - destruct (type =? "loki")%string.
    { rewrite Hloki. now apply joined_tags_empty_iff. }
    destruct (type =? "grafana-splunk-datasource")%string.
    { rewrite Hsplunk. now apply joined_tags_empty_iff. }
    destruct ((type =? "elasticsearch") || (type =? "grafana-opensearch-datasource"))%string;
      [|reflexivity].
    rewrite Hes. apply joined_tags_empty_iff.
    destruct (logs_tags options); [exact Hunmapped | reflexivity].
  - destruct (type =? "loki")%string; [discriminate|].
    destruct (type =? "grafana-splunk-datasource")%string; [discriminate|].
    cbn [orb] in Hunknown. now rewrite Hunknown.
Qed.

(** X9: Without a custom query, the legacy [SpanLink] makes no logs link for a
    span none of whose tags has a mapping entry, whatever the type of the
    logs data source and also when the ID filters are on; and it makes none
    when the type of the logs data source is not one it has a builder for. *)
Theorem no_logs_link_without_tags_or_dialect
  (splitOpenFn : SplitOpen)
  (options : TraceToLogsOptionsV2)
  (traceToMetricsOptions : option TraceToMetricsOptions)
  (createFocusSpanLink : option (string -> string -> LinkModel OnClick))
  (span : TraceSpan) (state : FactoryState) :
  customQuery options = false ->
  (forall tag, In tag (process_tags (process span) ++ tags span)%list ->
               mappedEntry (JS.or_else (logs_tags options) defaultKeys) tag = None)
  \/ (forall settings, settingsFor (datasourceUid options) = Some settings ->
                       knownDialect (ds_type settings) = false) ->
  exists links state',
    legacyCreateSpanLinkFactory splitOpenFn (Some options) traceToMetricsOptions
      createFocusSpanLink span state = (Normal (Some links), state') /\
    logLinks links = None.
Proof.
  intros Hcustom Hnothing. unfold legacyCreateSpanLinkFactory.
  change (match datasourceUid options with
          | Some uid => if JS.truthy uid then getInstanceSettings uid else None
          | None => None
          end) with (settingsFor (datasourceUid options)).
  match goal with
  | |- context [logsLinkBlock ?a ?b ?c ?d ?e ?f ?g] =>
      assert (Hlogs : logLinks (fst (logsLinkBlock a b c d e f g)) = None);
      [|destruct (logsLinkBlock a b c d e f g) as [links1 vars1]]
  end.
  { unfold logsLinkBlock.
    destruct (settingsFor (datasourceUid options)) as [settings|] eqn:Hsettings;
      [|reflexivity].
    fold noQueryData. rewrite queryDataForType_no_tags, Hcustom; [reflexivity|].
    destruct Hnothing as [Hunmapped | Hunknown]; [now left | right; now apply Hunknown]. }
  cbn [fst] in Hlogs.
  eexists _, _. split; [reflexivity|].
  rewrite (proj1 (subsidiaryLinksBlock_other_buckets _ _ _)).
  rewrite (proj1 (referenceLinksBlock_other_buckets _ _ _)).
  now rewrite (proj1 (metricsLinksBlock_buckets _ _ _ _ _)).
Qed.

(** X10: With the custom query switched on and a logs data source that is
    found, the legacy [SpanLink] always makes exactly one logs link,
    whatever the type of the data source and whether or not a tag was
    resolved: the link carries the query of the user instead of a built one,
    its window has the minimum width only for the Splunk type, and the
    variables it is resolved with hold the [__span] of the span and, as
    [__tags], the tag string of the builder of that type. *)
Theorem custom_query_always_links
  (splitOpenFn : SplitOpen)
  (options : TraceToLogsOptionsV2)
  (traceToMetricsOptions : option TraceToMetricsOptions)
  (createFocusSpanLink : option (string -> string -> LinkModel OnClick))
  (span : TraceSpan) (state : FactoryState) (settings : DataSourceInstanceSettings) :
  customQuery options = true ->
  settingsFor (datasourceUid options) = Some settings ->
  exists links state' vars,
    legacyCreateSpanLinkFactory splitOpenFn (Some options) traceToMetricsOptions
      createFocusSpanLink span state = (Normal (Some links), state') /\
    (let link :=
       mapInternalLinkToExplore
         (Build_DataLink (ds_name settings) ""
            (Some (Build_InternalDataLink (ds_uid settings) (ds_name settings)
                     (UserQuery (logs_query options)))))
         vars
         (getTimeRangeFromSpan span
            (Build_TimeShift (shiftMs (spanStartTimeShift options))
                             (shiftMs (spanEndTimeShift options)))
            (ds_type settings =? "grafana-splunk-datasource")%string)
         splitOpenFn in
     logLinks links =
       Some [Build_SpanLinkDef (lm_href link) (lm_onClick link) None
               (Build_Icon "gf-logs" "Explore the logs for this in split view")]) /\
    lookupProp vars "__span" = spanScope span /\
    lookupProp vars "__tags" =
      Some (tagsScope (qd_tags (queryDataForType (ds_type settings) span options noQueryData))).
Proof.
  intros Hcustom Hsettings. unfold legacyCreateSpanLinkFactory.
  change (match datasourceUid options with
          | Some uid => if JS.truthy uid then getInstanceSettings uid else None
          | None => None
          end) with (settingsFor (datasourceUid options)).
  rewrite Hsettings. unfold logsLinkBlock. rewrite Hcustom, orb_true_r.
  eexists _, _, _. split; [reflexivity|].
  rewrite (proj1 (subsidiaryLinksBlock_other_buckets _ _ _)).
  rewrite (proj1 (referenceLinksBlock_other_buckets _ _ _)).
  rewrite (proj1 (metricsLinksBlock_buckets _ _ _ _ _)).
  cbn [logLinks]. split; [reflexivity|].
  unfold spread at 1 3. cbn [fold_left fst snd]. split.
  - rewrite lookupProp_setProp_other by discriminate.
    apply (spread_span_scope (scopedVars state) span).
  - apply lookupProp_setProp_same.
Qed.

End LegacyLogsLink.

(** ** The structured mode, continued *)

Section StructuredMode.

Context {OnClick SplitOpen : Type} {collaborators : Collaborators OnClick SplitOpen}.

(** X16: When the factory takes the structured path, the frame has at least two
    fields and the search for a field with configured links succeeds: the
    field the closure hands to field-link resolution is never missing. *)
Theorem structured_mode_field_found (dataFrame : DataFrame) :
  useLegacyPath (Some dataFrame) = false ->
  (2 <= List.length (fields dataFrame))%nat /\
  exists field,
    find hasLinks (fields dataFrame) = Some field /\
    In field (fields dataFrame) /\
    exists configured, links (config field) = Some configured /\ configured <> [].
Proof.
  unfold useLegacyPath. intros Hstructured.
  apply orb_false_elim in Hstructured as [Hlength Hsome].
  apply negb_false_iff in Hsome. apply Nat.eqb_neq in Hlength.
  apply existsb_exists in Hsome as (witness & Hin & Hlinked).
  destruct (find hasLinks (fields dataFrame)) as [field|] eqn:Hfind.
  - apply find_some in Hfind as [Hfield Hhas]. split.
    + destruct (fields dataFrame) as [|f1 [|f2 rest]]; cbn in *; lia || contradiction.
    + exists field. split; [reflexivity|]. split; [exact Hfield|].
      unfold hasLinks in Hhas. destruct (links (config field)) as [configured|];
        [|discriminate].
      exists configured. split; [reflexivity|]. now destruct configured.
  - pose proof (find_none _ _ Hfind witness Hin). congruence.
Qed.

Lemma structured_mode_field_found_witness :
  exists field,
    find hasLinks (fields linkedFrame) = Some field /\ In field (fields linkedFrame).
Proof.
  destruct (structured_mode_field_found linkedFrame eq_refl)
    as (_ & field & Hfind & Hin & _).
  exists field. split; [exact Hfind | exact Hin].
Defined.

(** X17: In structured mode the closure does not depend on the trace-to-logs
    options, the trace-to-metrics options or the link creator, and when
    field-link resolution returns links it returns a single logs link, made
    from the first of them, and neither a trace bucket nor a metrics bucket;
    the console is left alone. *)
Theorem structured_mode_only_first_link
  (splitOpenFn : SplitOpen)
  (traceToLogsOptions traceToLogsOptions' : option TraceToLogsOptionsV2)
  (traceToMetricsOptions traceToMetricsOptions' : option TraceToMetricsOptions)
  (dataFrame : DataFrame)
  (createFocusSpanLink createFocusSpanLink' : option (string -> string -> LinkModel OnClick))
  (trace : Trace) (span : TraceSpan) (state : FactoryState)
  (link0 : LinkModel OnClick) (others : list (LinkModel OnClick)) :
  useLegacyPath (Some dataFrame) = false ->
  getFieldLinksForExplore (find hasLinks (fields dataFrame)) (dataFrameRowIndex span)
    splitOpenFn (getTimeRangeFromSpan span noTimeShift false) dataFrame
    (spread (scopedVars state) (scopedVarsFromSpan span)) = Normal (link0 :: others) ->
  let SpanLink :=
    fst (createSpanLinkFactory splitOpenFn traceToLogsOptions traceToMetricsOptions
           (Some dataFrame) createFocusSpanLink trace) in
  SpanLink =
    fst (createSpanLinkFactory splitOpenFn traceToLogsOptions' traceToMetricsOptions'
           (Some dataFrame) createFocusSpanLink' trace) /\
  exists state',
    SpanLink span state =
      (Normal (Some (Build_SpanLinks
                       (Some [Build_SpanLinkDef (lm_href link0) (lm_onClick link0) None
                                (Build_Icon "gf-logs"
                                   "Explore the logs for this in split view")])
                       None None)),
       state') /\
    console state' = console state.
Proof.
  intros Hstructured Hresolved. cbv zeta.
  unfold createSpanLinkFactory. rewrite Hstructured. cbn [fst].
  split; [reflexivity|].
  unfold structuredSpanLink, structuredTryBody. rewrite Hresolved.
  eexists. split; reflexivity.
Qed.

End StructuredMode.

(** ** Interpolation of the metrics query *)

Section MetricsInterpolation.

(** A string without dollar sign. *)
Fixpoint noDollar (s : string) : bool :=
  match s with
  | EmptyString => true
  | String c rest => negb (c =? "$")%char && noDollar rest
  end.

(** The labels the metrics query is interpolated with: for each entry of
    the configured mapping, in the order of the mapping, the first tag of
    the span (process tags first) with the key of the entry, provided its
    value is not empty. *)
Definition metricLabels (mapping : list KeyValue) (span : TraceSpan) : list string :=
  flat_map
    (fun tag =>
       match find (fun t => (tag_key t =? kv_key tag)%string)
               (process_tags (process span) ++ tags span) with
       | Some t =>
           if JS.truthy (tag_value t)
           then [labelOf tag ++ "=" ++ JS.dq ++ tag_value t ++ JS.dq]
           else []
       | None => []
       end)
    mapping.

Lemma labels_loop (span : TraceSpan) (mapping : list KeyValue) :
  forall acc,
    fold_left
      (fun acc tag =>
         match find (fun t => (tag_key t =? kv_key tag)%string)
                 (process_tags (process span) ++ tags span) with
         | Some t =>
             let tagValue := tag_value t in
             if JS.truthy tagValue
             then JS.push acc (labelOf tag ++ "=" ++ JS.dq ++ tagValue ++ JS.dq)
             else acc
         | None => acc
         end)
      mapping acc
    = (acc ++ metricLabels mapping span)%list.
Proof.
  induction mapping as [|tag mapping IH]; intros acc; cbn [fold_left metricLabels flat_map].
  - now rewrite app_nil_r.
  - rewrite IH. fold (metricLabels mapping span).
    destruct (find _ _) as [t|]; [|reflexivity]. cbv zeta.
    destruct (JS.truthy (tag_value t)); [|reflexivity].
    unfold JS.push. now rewrite <- app_assoc.
Qed.

Lemma getSubstitution_noDollar matched before after replacement :
  noDollar replacement = true ->
  JS.getSubstitution matched before after replacement = replacement.
Proof.
  induction replacement as [|c rest IH]; [reflexivity|].
  cbn [noDollar JS.getSubstitution]. intros Hno.
  apply andb_prop in Hno as [Hc Hrest]. apply negb_true_iff in Hc. rewrite Hc.
  now rewrite IH.
Qed.

Lemma scan_noDollar replacement whole s :
  noDollar s = true ->
  forall pos, JS.replaceAllFrom "$__tags" replacement whole pos 0 s = s.
Proof.
  induction s as [|c rest IH]; [reflexivity|].
  cbn [noDollar]. intros Hno pos. apply andb_prop in Hno as [Hc Hrest].
  apply negb_true_iff, Ascii.eqb_neq in Hc.
  cbn [JS.replaceAllFrom String.prefix].
  destruct (Ascii.ascii_dec "$" c) as [Heq|_]; [congruence|].
  now rewrite IH.
Qed.

Lemma scan_noDollar_then replacement whole pre s :
  noDollar pre = true ->
  forall pos,
    JS.replaceAllFrom "$__tags" replacement whole pos 0 (pre ++ s) =
    pre ++ JS.replaceAllFrom "$__tags" replacement whole (pos + String.length pre) 0 s.
Proof.
  induction pre as [|c rest IH]; intros Hno pos.
  - cbn [append String.length]. now rewrite Nat.add_0_r.
  - cbn [noDollar] in Hno. apply andb_prop in Hno as [Hc Hrest].
    apply negb_true_iff, Ascii.eqb_neq in Hc.
    cbn [append JS.replaceAllFrom String.prefix String.length].
    destruct (Ascii.ascii_dec "$" c) as [Heq|_]; [congruence|].
    rewrite IH by exact Hrest. now rewrite Nat.add_succ_r.
Qed.

Lemma prefix_append (pat rest : string) : String.prefix pat (pat ++ rest) = true.
Proof. apply prefix_iff_append. now exists rest. Qed.

Lemma scan_marker replacement whole pos post :
  noDollar post = true ->
  JS.replaceAllFrom "$__tags" replacement whole pos 0 ("$__tags" ++ post) =
  JS.getSubstitution "$__tags"
    (String.substring 0 pos whole)
    (String.substring (pos + String.length "$__tags") (String.length whole) whole)
    replacement
  ++ post.
Proof.
  intros Hpost.
  change ("$__tags" ++ post) with (String "$" ("__tags" ++ post)) at 1.
  cbn [JS.replaceAllFrom].
  change (String "$" ("__tags" ++ post)) with ("$__tags" ++ post).
  rewrite prefix_append. f_equal. cbn. now apply scan_noDollar.
Qed.

Lemma substring_of_prefix (a b : string) : String.substring 0 (String.length a) (a ++ b) = a.
Proof.
  induction a as [|c a IH]; cbn [String.length append String.substring].
  - destruct b; reflexivity.
  - now rewrite IH.
Qed.

Lemma substring_past_prefix (a b : string) (n m : nat) :
  String.substring (String.length a + n) m (a ++ b) = String.substring n m b.
Proof. induction a as [|c a IH]; [reflexivity | exact IH]. Qed.

Lemma substring_whole (s : string) (m : nat) :
  (String.length s <= m)%nat -> String.substring 0 m s = s.
Proof.
  revert m. induction s as [|c s IH]; intros m Hm.
  - destruct m; reflexivity.
  - destruct m as [|m]; cbn in Hm; [lia|]. cbn [String.substring]. rewrite IH; [reflexivity | lia].
Qed.

Lemma length_append (a b : string) :
  String.length (a ++ b) = (String.length a + String.length b)%nat.
Proof. induction a as [|c a IH]; [reflexivity|]. cbn [append String.length]. now rewrite IH. Qed.

(** X18: A template with a single [$__tags] marker and no other dollar sign is
    interpolated by replacing the marker with the expansion of the joined
    labels as a replacement text of [String.prototype.replace]: a [$$],
    [$&], [$`] or [$'] in a label is expanded and not copied. When the
    labels hold no dollar sign, the marker is replaced by the labels joined
    with a comma and a space. The labels follow the order of the configured
    mapping; an entry whose tag the span lacks, or has with an empty value,
    contributes none. *)
Theorem buildMetricsQuery_single_marker
  (query : TraceToMetricQuery) (mapping : list KeyValue) (span : TraceSpan)
  (pre post : string) :
  mq_query query = Some (pre ++ "$__tags" ++ post) ->
  mapping <> [] ->
  noDollar pre = true ->
  noDollar post = true ->
  buildMetricsQuery query (Some mapping) span =
    pre ++ JS.getSubstitution "$__tags" pre post (JS.join ", " (metricLabels mapping span))
    ++ post /\
  (noDollar (JS.join ", " (metricLabels mapping span)) = true ->
   buildMetricsQuery query (Some mapping) span =
     pre ++ JS.join ", " (metricLabels mapping span) ++ post).
Proof.
  intros Htemplate Hmapping Hpre Hpost.
  assert (Hgeneral :
    buildMetricsQuery query (Some mapping) span =
    pre ++ JS.getSubstitution "$__tags" pre post (JS.join ", " (metricLabels mapping span))
    ++ post).
  { unfold buildMetricsQuery. rewrite Htemplate. cbn [JS.truthy_opt JS.or_else].
    assert (Htruthy : JS.truthy (pre ++ "$__tags" ++ post) = true).
    { apply truthy_true_iff. intros Hempty.
      apply append_empty in Hempty as [_ Hempty]. discriminate Hempty. }
    assert (Hmarker : JS.includes "$__tags" (pre ++ "$__tags" ++ post) = true)
      by (apply includes_iff_occurs; now exists pre, post).
    assert (Hsome : (0 <? List.length mapping)%nat = true)
      by (destruct mapping; [contradiction | reflexivity]).
    rewrite Htruthy, Hmarker, Hsome. cbn [negb andb].
    rewrite labels_loop. cbn [app].
    unfold JS.replaceAll. rewrite scan_noDollar_then by exact Hpre.
    rewrite scan_marker by exact Hpost. cbn [Nat.add].
    rewrite substring_of_prefix, substring_past_prefix.
    change (String.substring (String.length "$__tags")
              (String.length (pre ++ "$__tags" ++ post)) ("$__tags" ++ post))
      with (String.substring 0 (String.length (pre ++ "$__tags" ++ post)) post).
    rewrite substring_whole; [reflexivity|].
    rewrite !length_append. lia. }
  split; [exact Hgeneral|].
  intros Hlabels. now rewrite Hgeneral, getSubstitution_noDollar.
Qed.

(** A pod whose name holds the pattern for the matched text. *)
Definition dollarSpan : TraceSpan :=
  Build_TraceSpan "6605c7b08e715d6c" "7946b05c2e2e4e5a" "op" 1000000 500000
    [Build_TraceKeyValuePair "pod" "a$&b"] (Build_TraceProcess []) None None None.

Lemma buildMetricsQuery_single_marker_witness :
  buildMetricsQuery markedTemplate
    (Some [Build_KeyValue "pod" (Some "k8s_pod"); Build_KeyValue "node" None;
           Build_KeyValue "cluster" None])
    clusterSpan
  = "sum(rate(requests_total{k8s_pod=" ++ JS.dq ++ "pod1" ++ JS.dq
    ++ ", cluster=" ++ JS.dq ++ "cluster1" ++ JS.dq ++ "}[5m]))" /\
  buildMetricsQuery markedTemplate (Some [Build_KeyValue "pod" None]) dollarSpan
  = "sum(rate(requests_total{pod=" ++ JS.dq ++ "a$__tagsb" ++ JS.dq ++ "}[5m]))".
Proof.
  split.
  - apply (proj2 (buildMetricsQuery_single_marker markedTemplate
                    [Build_KeyValue "pod" (Some "k8s_pod"); Build_KeyValue "node" None;
                     Build_KeyValue "cluster" None]
                    clusterSpan "sum(rate(requests_total{" "}[5m]))"
                    eq_refl ltac:(discriminate) eq_refl eq_refl)).
    reflexivity.
  - apply (proj1 (buildMetricsQuery_single_marker markedTemplate
                    [Build_KeyValue "pod" None]
                    dollarSpan "sum(rate(requests_total{" "}[5m]))"
                    eq_refl ltac:(discriminate) eq_refl eq_refl)).
Defined.

End MetricsInterpolation.

(** ** Reading the trace-to-logs settings ([TraceToLogsSettings.tsx]) *)

(** The deprecated [TraceToLogsOptions]. *)
Record TraceToLogsOptions : Type := Build_TraceToLogsOptions {
  v1_datasourceUid : option string;
  v1_tags : option (list string);
  mappedTags : option (list KeyValue);
  mapTagNamesEnabled : option bool;
  v1_spanStartTimeShift : option string;
  v1_spanEndTimeShift : option string;
  v1_filterByTraceID : option bool;
  v1_filterBySpanID : option bool;
  lokiSearch : option bool
}.

(** [TraceToLogsData], without the fields of [DataSourceJsonData]. *)
Record TraceToLogsData : Type := Build_TraceToLogsData {
  tracesToLogs : option TraceToLogsOptions;
  tracesToLogsV2 : option TraceToLogsOptionsV2
}.

Definition getTraceToLogsOptions (data : TraceToLogsData) : option TraceToLogsOptionsV2 :=
  match tracesToLogsV2 data with
  | Some v2 => Some v2
  | None =>
      match tracesToLogs data with
      | None => None
      | Some legacy =>
          Some (Build_TraceToLogsOptionsV2
                  (v1_datasourceUid legacy)
                  (if JS.truthy_flag (mapTagNamesEnabled legacy)
                   then mappedTags legacy
                   else option_map (map (fun tag => Build_KeyValue tag None)) (v1_tags legacy))
                  (v1_spanStartTimeShift legacy)
                  (v1_spanEndTimeShift legacy)
                  (v1_filterByTraceID legacy)
                  (v1_filterBySpanID legacy)
                  None
                  false)
      end
  end.

(** [Partial<TraceToLogsOptionsV2>]: each property is [None] when the
    object does not have it, and otherwise holds the value given for it. *)
Record PartialTraceToLogsOptionsV2 : Type := Build_PartialTraceToLogsOptionsV2 {
  p_datasourceUid : option (option string);
  p_tags : option (option (list KeyValue));
  p_spanStartTimeShift : option (option string);
  p_spanEndTimeShift : option (option string);
  p_filterByTraceID : option (option bool);
  p_filterBySpanID : option (option bool);
  p_query : option (option string);
  p_customQuery : option bool
}.

(** One property of the spread [{ ...current, ...written }]. *)
Definition overwrite {A : Type} (current : A) (written : option A) : A :=
  match written with
  | Some value => value
  | None => current
  end.

(** [{ ...traceToLogs, ...value }]. *)
Definition spreadOptions (traceToLogs : TraceToLogsOptionsV2)
  (value : PartialTraceToLogsOptionsV2) : TraceToLogsOptionsV2 :=
  Build_TraceToLogsOptionsV2
    (overwrite (datasourceUid traceToLogs) (p_datasourceUid value))
    (overwrite (logs_tags traceToLogs) (p_tags value))
    (overwrite (spanStartTimeShift traceToLogs) (p_spanStartTimeShift value))
    (overwrite (spanEndTimeShift traceToLogs) (p_spanEndTimeShift value))
    (overwrite (filterByTraceID traceToLogs) (p_filterByTraceID value))
    (overwrite (filterBySpanID traceToLogs) (p_filterBySpanID value))
    (overwrite (logs_query traceToLogs) (p_query value))
    (overwrite (customQuery traceToLogs) (p_customQuery value)).

(** The [traceToLogs] of the settings editor:
    [getTraceToLogsOptions(options.jsonData) || { customQuery: false }]. *)
Definition editedOptions (jsonData : TraceToLogsData) : TraceToLogsOptionsV2 :=
  match getTraceToLogsOptions jsonData with
  | Some traceToLogs => traceToLogs
  | None => Build_TraceToLogsOptionsV2 None None None None None None None false
  end.

(** [updateTracesToLogs], as the [jsonData] it hands to [onOptionsChange]:
    the new options are stored and the deprecated ones are dropped. *)
Definition updateTracesToLogs (jsonData : TraceToLogsData)
  (value : PartialTraceToLogsOptionsV2) : TraceToLogsData :=
  Build_TraceToLogsData None (Some (spreadOptions (editedOptions jsonData) value)).

Section TraceToLogsSettings.

(** An update that has no property. *)
Definition nothingWritten : PartialTraceToLogsOptionsV2 :=
  Build_PartialTraceToLogsOptionsV2 None None None None None None None None.

(** The update that has the properties of two updates, those of the later
    one taking precedence. *)
Definition writtenAfter (earlier later : PartialTraceToLogsOptionsV2)
  : PartialTraceToLogsOptionsV2 :=
  let pick {A : Type} (e l : option A) : option A :=
    match l with
    | Some value => Some value
    | None => e
    end in
  Build_PartialTraceToLogsOptionsV2
    (pick (p_datasourceUid earlier) (p_datasourceUid later))
    (pick (p_tags earlier) (p_tags later))
    (pick (p_spanStartTimeShift earlier) (p_spanStartTimeShift later))
    (pick (p_spanEndTimeShift earlier) (p_spanEndTimeShift later))
    (pick (p_filterByTraceID earlier) (p_filterByTraceID later))
    (pick (p_filterBySpanID earlier) (p_filterBySpanID later))
    (pick (p_query earlier) (p_query later))
    (pick (p_customQuery earlier) (p_customQuery later)).

Lemma editedOptions_after_update jsonData value :
  editedOptions (updateTracesToLogs jsonData value) =
  spreadOptions (editedOptions jsonData) value.
Proof. reflexivity. Qed.

Lemma spreadOptions_twice traceToLogs earlier later :
  spreadOptions (spreadOptions traceToLogs earlier) later =
  spreadOptions traceToLogs (writtenAfter earlier later).
Proof.
  destruct later as [[?|] [?|] [?|] [?|] [?|] [?|] [?|] [?|]]; reflexivity.
Qed.

(** X19: what the settings editor stores is read back as written. After
    [updateTracesToLogs] the deprecated options are gone and
    [getTraceToLogsOptions] returns the options that were read before,
    or [{ customQuery: false }] when there were none, with the written
    properties replaced; in particular an update without properties stores
    options that were read, deprecated ones included, so that they are read
    the same. Two updates in a row store what one update with the
    properties of both stores, the later ones taking precedence, and
    repeating an update stores nothing new. *)
Theorem updateTracesToLogs_read_back (jsonData : TraceToLogsData)
  (value later : PartialTraceToLogsOptionsV2) :
  tracesToLogs (updateTracesToLogs jsonData value) = None /\
  getTraceToLogsOptions (updateTracesToLogs jsonData value) =
    Some (spreadOptions (editedOptions jsonData) value) /\
  (forall traceToLogs,
     getTraceToLogsOptions jsonData = Some traceToLogs ->
     getTraceToLogsOptions (updateTracesToLogs jsonData nothingWritten) = Some traceToLogs) /\
  updateTracesToLogs (updateTracesToLogs jsonData value) later =
    updateTracesToLogs jsonData (writtenAfter value later) /\
  updateTracesToLogs (updateTracesToLogs jsonData value) value =
    updateTracesToLogs jsonData value.
Proof.
  split; [reflexivity|]. split; [reflexivity|]. split; [|split].
  - intros traceToLogs Hread. unfold updateTracesToLogs, editedOptions. rewrite Hread.
    destruct traceToLogs; reflexivity.
  - unfold updateTracesToLogs at 1 3. rewrite editedOptions_after_update.
    now rewrite spreadOptions_twice.
  - unfold updateTracesToLogs at 1 3. rewrite editedOptions_after_update.
    rewrite spreadOptions_twice. unfold updateTracesToLogs. do 2 f_equal.
    destruct value as [[?|] [?|] [?|] [?|] [?|] [?|] [?|] [?|]]; reflexivity.
Qed.

Lemma find_plain_key names key :
  find (fun keyValue => (kv_key keyValue =? key)%string)
    (map (fun tag => Build_KeyValue tag None) names)
  = if existsb (fun name => (name =? key)%string) names
    then Some (Build_KeyValue key None) else None.
Proof.
  induction names as [|name names IH]; [reflexivity|].
  cbn [map find existsb kv_key].
  destruct (String.eqb_spec name key) as [->|Hne]; [reflexivity | exact IH].
Qed.

(** X20: Deprecated options that list plain tag names, with the mapping of tag
    names off, are read as options that select exactly the tags of a span
    whose key is listed, and project each under its own key: no tag is
    renamed, and the mapped tags of the deprecated options play no part. *)
Theorem plain_tag_names_keep_their_key (legacy : TraceToLogsOptions) (names : list string)
  (span : TraceSpan) (sign : string) :
  JS.truthy_flag (mapTagNamesEnabled legacy) = false ->
  v1_tags legacy = Some names ->
  exists options,
    getTraceToLogsOptions (Build_TraceToLogsData (Some legacy) None) = Some options /\
    customQuery options = false /\
    getTags span (JS.or_else (logs_tags options) defaultKeys) sign =
    flat_map
      (fun tag =>
         if existsb (fun name => (name =? tag_key tag)%string) names
         then [tag_key tag ++ sign ++ JS.dq ++ tag_value tag ++ JS.dq]
         else [])
      (process_tags (process span) ++ tags span).
Proof.
  intros Hplain Hnames. eexists. split; [reflexivity|]. split; [reflexivity|].
  cbn [logs_tags]. rewrite Hplain, Hnames. cbn [option_map JS.or_else].
  rewrite getTags_fragments, <- fragmentsOf_app. unfold fragmentsOf, mappedEntry.
  apply flat_map_ext. intros tag. rewrite find_plain_key.
  destruct (existsb _ names); reflexivity.
Qed.

Lemma plain_tag_names_keep_their_key_witness :
  exists options,
    getTraceToLogsOptions
      (Build_TraceToLogsData
         (Some (Build_TraceToLogsOptions (Some "logs-uid") (Some ["pod"; "ip"])
                  (Some [Build_KeyValue "cluster" (Some "k8s_cluster")]) None
                  None None (Some true) None None))
         None) = Some options /\
    getTags clusterSpan (JS.or_else (logs_tags options) defaultKeys) "="
    = ["pod=" ++ JS.dq ++ "pod1" ++ JS.dq; "ip=" ++ JS.dq ++ "192.168.0.1" ++ JS.dq].
Proof.
  destruct (plain_tag_names_keep_their_key
              (Build_TraceToLogsOptions (Some "logs-uid") (Some ["pod"; "ip"])
                 (Some [Build_KeyValue "cluster" (Some "k8s_cluster")]) None
                 None None (Some true) None None)
              ["pod"; "ip"] clusterSpan "=" eq_refl eq_refl)
    as (options & Hread & _ & Htags).
  exists options. split; [exact Hread|]. rewrite Htags. reflexivity.
Defined.

End TraceToLogsSettings.

(** ** Validation of the correlation commands (package [correlations]) *)

Module Correlations.

(** A Go [error], represented by its message; [None] is [nil]. *)
Definition error : Type := string.

Definition quote : string := String "034"%char EmptyString.

Definition ErrUpdateCorrelationEmptyParams : error :=
  "not enough parameters to edit correlation".

Definition ErrInvalidConfigType : error := "invalid correlation config type".

Definition CorrelationConfigType : Type := string.

Definition ConfigTypeQuery : CorrelationConfigType := "query".

Record Transformation : Type := Build_Transformation {
  TransformationType : string;
  TransformationVariable : string;
  Expression : string
}.

(** [fmt.Errorf("%s: \"%s\"", ErrInvalidConfigType, t)] when the type is not
    the query type. *)
Definition ValidateType (t : CorrelationConfigType) : option error :=
  if negb (t =? ConfigTypeQuery)%string
  then Some (ErrInvalidConfigType ++ ": " ++ quote ++ t ++ quote)
  else None.

Section Commands.

(** The target query ([map[string]interface{}]) and the mappings
    ([interface{}]) are opaque to the validation. *)
Context {TargetQuery Mappings : Type}.

Record CorrelationConfig : Type := Build_CorrelationConfig {
  ConfigField : string;
  Type_ : CorrelationConfigType;
  Target : option TargetQuery;
  Transformations : list Transformation;
  ConfigMappings : option Mappings
}.

Record CreateCorrelationCommand : Type := Build_CreateCorrelationCommand {
  SourceUID : string;
  OrgId : Z;
  SkipReadOnlyCheck : bool;
  TargetUID : option string;
  Label : string;
  Description : string;
  Config : CorrelationConfig
}.

Definition ValidateCreate (c : CreateCorrelationCommand) : option error :=
  match ValidateType (Type_ (Config c)) with
  | Some err => Some err
  | None =>
      match TargetUID c with
      | None =>
          if (Type_ (Config c) =? ConfigTypeQuery)%string
          then Some ("correlations of type " ++ quote ++ ConfigTypeQuery ++ quote
                     ++ " must have a targetUID")
          else None
      | Some _ => None
      end
  end.

Record CorrelationConfigUpdateDTO : Type := Build_CorrelationConfigUpdateDTO {
  UpdateField : option string;
  UpdateType : option CorrelationConfigType;
  UpdateTarget : option TargetQuery;
  UpdateSource : option Transformation
}.

Definition ValidateConfigUpdate (c : CorrelationConfigUpdateDTO) : option error :=
  match UpdateType c with
  | Some t => ValidateType t
  | None => None
  end.

Record UpdateCorrelationCommand : Type := Build_UpdateCorrelationCommand {
  UpdateUID : string;
  UpdateSourceUID : string;
  UpdateOrgId : Z;
  UpdateLabel : option string;
  UpdateDescription : option string;
  UpdateConfig : option CorrelationConfigUpdateDTO
}.

(** [x == nil] for a pointer. *)
Definition isNil {A : Type} (x : option A) : bool :=
  match x with
  | None => true
  | Some _ => false
  end.

Definition ValidateUpdate (c : UpdateCorrelationCommand) : option error :=
  match match UpdateConfig c with
        | Some config => ValidateConfigUpdate config
        | None => None
        end with
  | Some err => Some err
  | None =>
      if isNil (UpdateLabel c) && isNil (UpdateDescription c)
         && (isNil (UpdateConfig c)
             || match UpdateConfig c with
                | Some config =>
                    isNil (UpdateField config) && isNil (UpdateType config)
                    && isNil (UpdateTarget config)
                | None => false
                end)
      then Some ErrUpdateCorrelationEmptyParams
      else None
  end.

End Commands.

Arguments CorrelationConfig : clear implicits.
Arguments CreateCorrelationCommand : clear implicits.
Arguments CorrelationConfigUpdateDTO : clear implicits.
Arguments UpdateCorrelationCommand : clear implicits.

End Correlations.

Section CorrelationValidation.

Import Correlations.

Context {TargetQuery Mappings : Type}.

Lemma ValidateType_nil_iff (t : CorrelationConfigType) :
  ValidateType t = None <-> t = ConfigTypeQuery.
Proof.
  unfold ValidateType. destruct (String.eqb_spec t ConfigTypeQuery); cbn [negb];
    split; intros; congruence.
Qed.

(** X21: A command that creates a correlation is valid exactly when the type of
    its configuration is the query type and it names a target data source;
    a wrong type is reported before a missing target, in an error that
    quotes the type. *)
Theorem create_valid_iff (c : CreateCorrelationCommand TargetQuery Mappings) :
  (ValidateCreate c = None <->
   Type_ (Config c) = ConfigTypeQuery /\ TargetUID c <> None) /\
  (Type_ (Config c) <> ConfigTypeQuery ->
   ValidateCreate c =
     Some ("invalid correlation config type: " ++ quote ++ Type_ (Config c) ++ quote)) /\
  (Type_ (Config c) = ConfigTypeQuery -> TargetUID c = None ->
   ValidateCreate c =
     Some ("correlations of type " ++ quote ++ "query" ++ quote ++ " must have a targetUID")).
Proof.
  unfold ValidateCreate, ValidateType.
  destruct (String.eqb_spec (Type_ (Config c)) ConfigTypeQuery) as [Hquery|Hother];
    cbn [negb]; destruct (TargetUID c) as [uid|]; repeat split;
    try congruence; try (intros [? ?]; congruence); try discriminate.
Qed.

(** X22: A command that updates a correlation is valid exactly when the type of
    its configuration, if it gives one, is the query type, and it gives a
    label, a description, or a field, type or target in its configuration;
    a configuration that gives only a source transformation does not
    count. *)
Theorem update_valid_iff (c : UpdateCorrelationCommand TargetQuery) :
  ValidateUpdate c = None <->
  (forall config t, UpdateConfig c = Some config -> UpdateType config = Some t ->
                    t = ConfigTypeQuery) /\
  (UpdateLabel c <> None \/ UpdateDescription c <> None \/
   exists config,
     UpdateConfig c = Some config /\
     (UpdateField config <> None \/ UpdateType config <> None \/ UpdateTarget config <> None)).
Proof.
  unfold ValidateUpdate, ValidateConfigUpdate.
  destruct c as [uid source org label description [[field type target transformation]|]];
    cbn [UpdateConfig UpdateLabel UpdateDescription UpdateField UpdateType UpdateTarget isNil].
  - destruct type as [t|].
    + destruct (ValidateType t) eqn:Hvalid.
      * split; [discriminate|]. intros [Htype _].
        specialize (Htype _ t eq_refl eq_refl). apply ValidateType_nil_iff in Htype.
        congruence.
      * apply ValidateType_nil_iff in Hvalid.
        match goal with
        | |- (if ?test then _ else _) = None <-> _ =>
            replace test with false by (destruct label, description, field; reflexivity)
        end.
        split; [|reflexivity]. intros _. split.
        -- intros config t' Hconfig Ht'. inversion Hconfig; subst. cbn in Ht'. congruence.
        -- right; right. eexists. split; [reflexivity|]. right; left. discriminate.
    + split.
      * intros Hvalid. split.
        -- intros config t' Hconfig Ht'. inversion Hconfig; subst. discriminate Ht'.
        -- destruct label; [left; discriminate|].
           destruct description; [right; left; discriminate|].
           right; right. eexists. split; [reflexivity|].
           destruct field; [left; discriminate|].
           destruct target; [right; right; discriminate|].
           discriminate Hvalid.
      * intros [_ [Hlabel | [Hdescription | (config & Hconfig & Hgiven)]]].
        -- destruct label; [reflexivity | contradiction].
        -- destruct description; [now rewrite andb_false_r | contradiction].
        -- inversion Hconfig; subst. cbn in Hgiven.
           destruct Hgiven as [Hfield | [Htype | Htarget]].
           ++ destruct field; [now rewrite !andb_false_r | contradiction].
           ++ contradiction.
           ++ destruct target; [now rewrite !andb_false_r | contradiction].
  - split.
    + intros Hvalid. split.
      * intros config t' Hconfig. discriminate Hconfig.
      * destruct label; [left; discriminate|].
        destruct description; [right; left; discriminate|].
        discriminate Hvalid.
    + intros [_ [Hlabel | [Hdescription | (config & Hconfig & _)]]].
      * destruct label; [reflexivity | contradiction].
      * destruct description; [now rewrite andb_false_r | contradiction].
      * discriminate Hconfig.
Qed.

End CorrelationValidation.

(** ** Dropping a prefix from generated Go names ([pkg/codegen/util_go.go]) *)

Module Codegen.

(** [prefixmod], without its two compiled regular expressions, which only
    the rewriting of comments reads. *)
Record prefixmod : Type := Build_prefixmod {
  prefix : string;
  replace : string
}.

(** The rest of [s] after [pre], when [s] starts with [pre]. *)
Fixpoint afterPrefix (pre s : string) : option string :=
  match pre with
  | EmptyString => Some s
  | String c pre' =>
      match s with
      | EmptyString => None
      | String d s' => if (c =? d)%char then afterPrefix pre' s' else None
      end
  end.

(** [strings.TrimPrefix(s, pre)]. *)
Definition TrimPrefix (s pre : string) : string :=
  match afterPrefix pre s with
  | Some rest => rest
  | None => s
  end.

(** [do], as the name the identifier has after the call. *)
Definition do (d : prefixmod) (name : string) : string :=
  if negb (name =? prefix d)%string then TrimPrefix name (prefix d)
  else if negb (replace d =? "")%string then replace d
  else name.

(** The expressions [handleExpr] tells apart; every other kind of
    expression is an [OtherExpr]. *)
Inductive Expr : Type :=
| Ident (Name : string)
| StarExpr (X : Expr)
| ArrayType (Elt : Expr)
| MapType (Key Value : Expr)
| OtherExpr (kind : string).

Definition depoint (e : Expr) : Expr :=
  match e with
  | StarExpr x => x
  | _ => e
  end.

(** An update made in place on [depoint e], seen from [e]. *)
Definition atDepointed (update : Expr -> Expr) (e : Expr) : Expr :=
  match e with
  | StarExpr x => StarExpr (update x)
  | _ => update e
  end.

(** [if id, is := x.( *dst.Ident ); is { d.do(id) }]. *)
Definition doIfIdent (d : prefixmod) (x : Expr) : Expr :=
  match x with
  | Ident name => Ident (do d name)
  | _ => x
  end.

(** [handleExpr], as the expression after the call. *)
Definition handleExpr (d : prefixmod) (e : Expr) : Expr :=
  atDepointed
    (fun expr =>
       match expr with
       | Ident name => Ident (do d name)
       | ArrayType elt => ArrayType (atDepointed (doIfIdent d) elt)
       | MapType key value =>
           MapType (atDepointed (doIfIdent d) key) (atDepointed (doIfIdent d) value)
       | _ => expr
       end)
    e.

End Codegen.

Section PrefixDropping.

Import Codegen.

Lemma afterPrefix_append pre rest : afterPrefix pre (pre ++ rest) = Some rest.
Proof.
  induction pre as [|c pre IH]; [reflexivity|].
  cbn [append afterPrefix]. now rewrite Ascii.eqb_refl.
Qed.

Lemma afterPrefix_some pre s rest : afterPrefix pre s = Some rest -> s = pre ++ rest.
Proof.
  revert s. induction pre as [|c pre IH]; intros s; cbn [afterPrefix append].
  - now intros [= ->].
  - destruct s as [|d s]; [discriminate|].
    destruct (Ascii.eqb_spec c d) as [->|_]; [|discriminate].
    intros Hrest. now rewrite (IH s Hrest).
Qed.

Lemma append_empty_r (s : string) : s ++ "" = s.
Proof. induction s as [|c s IH]; [reflexivity|]. cbn [append]. now rewrite IH. Qed.

(** X23: Renaming never leaves an identifier without name: a name that is not
    empty is not empty after [do], for every prefix and replacement. *)
Theorem do_never_empties (d : prefixmod) (name : string) :
  name <> "" -> do d name <> "".
Proof.
  intros Hname. unfold do, TrimPrefix.
  destruct (String.eqb_spec name (prefix d)) as [Hsame|Hother]; cbn [negb].
  - destruct (String.eqb_spec (replace d) ""); cbn [negb]; assumption.
  - destruct (afterPrefix (prefix d) name) as [rest|] eqn:Hafter; [|exact Hname].
    apply afterPrefix_some in Hafter. intros ->. apply Hother.
    rewrite Hafter. apply append_empty_r.
Qed.

Lemma do_never_empties_witness : do (Build_prefixmod "Dashboard" "") "Dashboard" <> "".
Proof. apply do_never_empties. discriminate. Defined.

(** X24: [do] removes the prefix once from a longer name that starts with it,
    leaves alone a name that does not start with it, and turns a name equal
    to the prefix into the replacement, or leaves it alone when there is no
    replacement. *)
Theorem do_by_cases (d : prefixmod) :
  (forall rest, rest <> "" -> do d (prefix d ++ rest) = rest) /\
  (forall name, afterPrefix (prefix d) name = None -> do d name = name) /\
  do d (prefix d) = (if (replace d =? "")%string then prefix d else replace d).
Proof.
  unfold do, TrimPrefix. repeat split.
  - intros rest Hrest.
    destruct (String.eqb_spec (prefix d ++ rest) (prefix d)) as [Hsame|_]; cbn [negb].
    + exfalso. apply Hrest. clear Hrest. revert Hsame.
      induction (prefix d) as [|c pre IH]; cbn [append]; [tauto|].
      intros [= Hsame]. now apply IH.
    + now rewrite afterPrefix_append.
  - intros name Hnone. rewrite Hnone.
    destruct (String.eqb_spec name (prefix d)) as [->|_]; cbn [negb]; [|reflexivity].
    exfalso. revert Hnone. clear. induction (prefix d) as [|c pre IH]; [discriminate|].
    cbn [afterPrefix]. now rewrite Ascii.eqb_refl.
  - rewrite String.eqb_refl. cbn [negb].
    destruct (replace d =? "")%string; reflexivity.
Qed.

(** An expression with the name of every identifier blanked. *)
Fixpoint blankNames (e : Expr) : Expr :=
  match e with
  | Ident _ => Ident ""
  | StarExpr x => StarExpr (blankNames x)
  | ArrayType elt => ArrayType (blankNames elt)
  | MapType key value => MapType (blankNames key) (blankNames value)
  | OtherExpr kind => OtherExpr kind
  end.

Lemma doIfIdent_shape d e : blankNames (atDepointed (doIfIdent d) e) = blankNames e.
Proof. destruct e as [name| [name| | | |] | | |]; reflexivity. Qed.

(** X25: [handleExpr] changes nothing but names of identifiers, and it reaches an
    identifier only directly, as the element of an array or as the key or
    value of a map, each behind at most one pointer: a pointer to a pointer,
    an array of arrays and an array of maps come back as they were. *)
Theorem handleExpr_shape_and_reach (d : prefixmod) (e : Expr) :
  blankNames (handleExpr d e) = blankNames e /\
  handleExpr d (StarExpr (StarExpr e)) = StarExpr (StarExpr e) /\
  handleExpr d (ArrayType (ArrayType e)) = ArrayType (ArrayType e) /\
  (forall value, handleExpr d (ArrayType (MapType e value)) = ArrayType (MapType e value)).
Proof.
  repeat split; try reflexivity.
  unfold handleExpr.
  destruct e as [name| [name|x|elt|key value|kind] |elt|key value|kind];
    cbn [atDepointed blankNames]; try reflexivity;
    rewrite ?doIfIdent_shape; reflexivity.
Qed.

End PrefixDropping.

(** ** The further properties on concrete collaborators *)

Section FurtherExamples.

Lemma no_logs_link_without_tags_or_dialect_witness :
  exists links state',
    legacyCreateSpanLinkFactory (collaborators := stubCollaborators (Normal []))
      tt (Some (filteringOptions None)) None None untaggedSpan initialState
    = (Normal (Some links), state') /\
    logLinks links = None.
Proof.
  apply (no_logs_link_without_tags_or_dialect
           (collaborators := stubCollaborators (Normal []))
           tt (filteringOptions None) None None untaggedSpan initialState).
  - reflexivity.
  - left. intros tag [].
Defined.

(** Options with a custom query, on the data source [logs-uid]. *)
Definition customQueryOptions : TraceToLogsOptionsV2 :=
  Build_TraceToLogsOptionsV2 (Some "logs-uid") None None None None None
    (Some "{$__tags} |= `${__span.spanId}`") true.

Lemma custom_query_always_links_witness :
  exists links state' link,
    legacyCreateSpanLinkFactory (collaborators := stubCollaborators (Normal []))
      tt (Some customQueryOptions) None None untaggedSpan initialState
    = (Normal (Some links), state') /\
    logLinks links = Some [link] /\
    href link = "/explore?title=Loki".
Proof.
  destruct (custom_query_always_links
              (collaborators := stubCollaborators (Normal []))
              tt customQueryOptions None None untaggedSpan initialState
              (Build_DataSourceInstanceSettings "loki" "Loki" "logs-uid")
              eq_refl eq_refl)
    as (links & state' & vars & Hrun & Hlink & _).
  cbv zeta in Hlink.
  eexists links, state', _. split; [exact Hrun|]. split; [exact Hlink | reflexivity].
Defined.

Definition exploreLink : LinkModel unit := Build_LinkModel "/explore?left=logs" tt.

Lemma structured_mode_only_first_link_witness :
  exists state',
    fst (createSpanLinkFactory (collaborators := stubCollaborators (Normal [exploreLink]))
           tt None None (Some linkedFrame) (Some focusSpanLink) sampleTrace)
      linkedSpan initialState
    = (Normal (Some (Build_SpanLinks
                       (Some [Build_SpanLinkDef "/explore?left=logs" tt None
                                (Build_Icon "gf-logs"
                                   "Explore the logs for this in split view")])
                       None None)),
       state').
Proof.
  pose proof (structured_mode_only_first_link
                (collaborators := stubCollaborators (Normal [exploreLink]))
                tt None None None None linkedFrame (Some focusSpanLink) None
                sampleTrace linkedSpan initialState exploreLink [] eq_refl eq_refl)
    as Hfirst.
  cbv zeta in Hfirst. destruct Hfirst as (_ & state' & Hrun & _).
  exists state'. exact Hrun.
Defined.

End FurtherExamples.
